(** * Memory Bank state manager: a shallow embedding and its properties

    The development follows the Python package [memory_bank]:
    - [core.py]      the manager object, the persisted JSON state file,
                     its initialisation, reload and save;
    - [sections.py]  section accessors, the dependency resolver and the
                     change log;
    - [exporters.py] the markdown projection (export and import);
    - [workflows.py] the plan, act and review reports, which only read the
                     state.

    Python values are JSON trees; a dictionary is a finite map with string
    keys.  Every operation runs in a state-and-exception monad over a
    [world]: the manager's fields, the files of the [memory-bank] directory
    and the clock.  An exception keeps the mutations made before it was
    raised, as in Python. *)

From stdpp Require Import gmap strings list fin_maps.
From Stdlib Require Import ZArith Ascii String.

#[local] Set Warnings "-register-all".
#[local] Open Scope string_scope.

(** ** Values *)

(** What [json.load] can return and [json.dump] can write.  Numbers are
    kept as integers: no operation of the package inspects a number. *)
Inductive value : Type :=
  | VNull
  | VBool (b : bool)
  | VNum (n : Z)
  | VStr (s : string)
  | VList (l : list value)
  | VDict (d : gmap string value).

(** The exceptions the package can meet. *)
Inductive exn : Type :=
  | KeyError (key : string)
  | TypeError
  | AttributeError (attr : string)
  | UnboundLocalError (var : string)
  | RecursionError
  | JSONDecodeError
  | FileNotFoundError.

Inductive outcome (A : Type) : Type :=
  | Ok (a : A)
  | Raise (e : exn).
Arguments Ok {A} a.
Arguments Raise {A} e.

#[global] Instance outcome_ret : MRet outcome := λ A a, Ok a.
#[global] Instance outcome_bind : MBind outcome := λ A B f m,
  match m with
  | Ok a => f a
  | Raise e => Raise e
  end.

(** ** Python primitives on values *)

(** [isinstance(v, dict)] and [isinstance(v, list)]. *)
Definition is_dict (v : value) : bool :=
  match v with VDict _ => true | _ => false end.

Definition is_list (v : value) : bool :=
  match v with VList _ => true | _ => false end.

(** Truth value of an object, as tested by [if v:] and [v or d]. *)
Definition truthy (v : value) : bool :=
  match v with
  | VNull => false
  | VBool b => b
  | VNum n => negb (Z.eqb n 0)
  | VStr s => negb (String.eqb s "")
  | VList l => negb (bool_decide (l = []))
  | VDict d => negb (bool_decide (d = ∅))
  end.

(** [v == s] for a string literal [s]: only a string compares equal. *)
Definition str_eq (v : value) (s : string) : bool :=
  match v with VStr s' => String.eqb s' s | _ => false end.

(** [s1 in s2] on strings: [s1] occurs in [s2]. *)
Definition is_substring (s1 s2 : string) : bool :=
  match String.index 0 s1 s2 with Some _ => true | None => false end.

(** [k in v] for a string [k]: key of a dictionary, element of a list,
    substring of a string; other values are not iterable. *)
Definition py_contains (k : string) (v : value) : outcome bool :=
  match v with
  | VDict d => Ok (bool_decide (is_Some (d !! k)))
  | VList l => Ok (existsb (λ x, str_eq x k) l)
  | VStr s => Ok (is_substring k s)
  | _ => Raise TypeError
  end.

(** [v[k]] for a string [k]. *)
Definition py_getitem (v : value) (k : string) : outcome value :=
  match v with
  | VDict d => match d !! k with Some x => Ok x | None => Raise (KeyError k) end
  | _ => Raise TypeError
  end.

(** [v[k] = x] for a string [k]; the result is the updated container. *)
Definition py_setitem (v : value) (k : string) (x : value) : outcome value :=
  match v with
  | VDict d => Ok (VDict (<[k := x]> d))
  | _ => Raise TypeError
  end.

(** [v.append(x)]: only lists have the method. *)
Definition py_append (v : value) (x : value) : outcome value :=
  match v with
  | VList l => Ok (VList (l ++ [x]))
  | _ => Raise (AttributeError "append")
  end.

(** [v.get(k, default)]; the package calls it on dictionaries it has just
    tested with [isinstance]. *)
Definition py_get (v : value) (k : string) (default : value) : outcome value :=
  match v with
  | VDict d => Ok (match d !! k with Some x => x | None => default end)
  | _ => Raise (AttributeError "get")
  end.

(** [v.items()] as the list the [for] loop walks. *)
Definition py_items (v : value) : outcome (list (string * value)) :=
  match v with
  | VDict d => Ok (map_to_list d)
  | _ => Raise (AttributeError "items")
  end.

(** ** The world: manager object, files and clock *)

(** Content of the JSON state file, up to what [json.load] makes of it:
    text that decodes to a value, or text that [json.load] rejects with
    [JSONDecodeError]. *)
Inductive json_file : Type :=
  | JsonText (v : value)
  | Garbage (text : string).

(** A file path: directory and final component ([Path.parent],
    [Path.name]). *)
Abbreviation path := (string * string)%type.

Record world : Type := World {
  project_root : string;            (* [os.path.basename(self.project_root)] *)
  memory_path : string;             (* [self.memory_path], a directory *)
  memory_state : value;             (* [self.memory_state] *)
  state_file : option json_file;    (* memory-bank/memory_state.json *)
  backup_file : option json_file;   (* memory-bank/memory_state.backup.json *)
  files : gmap path string;         (* every other file, as text *)
  clock : nat → string;             (* [datetime.datetime.now().isoformat()] *)
  ticks : nat                       (* clock readings taken so far *)
}.

Definition set_memory_state (v : value) (w : world) : world :=
  World (project_root w) (memory_path w) v (state_file w) (backup_file w)
        (files w) (clock w) (ticks w).

Definition set_state_file (f : option json_file) (w : world) : world :=
  World (project_root w) (memory_path w) (memory_state w) f (backup_file w)
        (files w) (clock w) (ticks w).

Definition set_backup_file (f : option json_file) (w : world) : world :=
  World (project_root w) (memory_path w) (memory_state w) (state_file w) f
        (files w) (clock w) (ticks w).

Definition set_files (fs : gmap path string) (w : world) : world :=
  World (project_root w) (memory_path w) (memory_state w) (state_file w)
        (backup_file w) fs (clock w) (ticks w).

Definition tick (w : world) : world :=
  World (project_root w) (memory_path w) (memory_state w) (state_file w)
        (backup_file w) (files w) (clock w) (S (ticks w)).

(** The monad of the package's procedures. *)
Definition M (A : Type) : Type := world → outcome A * world.

#[global] Instance M_ret : MRet M := λ A a w, (Ok a, w).
#[global] Instance M_bind : MBind M := λ A B f m w,
  match m w with
  | (Ok a, w') => f a w'
  | (Raise e, w') => (Raise e, w')
  end.

#[global] Instance M_fmap : FMap M := λ A B f m w,
  match m w with
  | (Ok a, w') => (Ok (f a), w')
  | (Raise e, w') => (Raise e, w')
  end.

Definition raise {A : Type} (e : exn) : M A := λ w, (Raise e, w).

(** Run a pure computation that may raise. *)
Definition lift {A : Type} (o : outcome A) : M A := λ w, (o, w).

Definition get_world : M world := λ w, (Ok w, w).

Definition modify (f : world → world) : M unit := λ w, (Ok tt, f w).

(** [for x in l: body x]. *)
Fixpoint for_each {A : Type} (l : list A) (body : A → M unit) : M unit :=
  match l with
  | [] => mret tt
  | x :: l' => body x ;; for_each l' body
  end.

(** [datetime.datetime.now().isoformat()]. *)
Definition now : M value :=
  w ← get_world; modify tick ;; mret (VStr (clock w (ticks w))).

(** [self.memory_state[name][key] = x]: the section object is fetched,
    then updated in place. *)
Definition set_section_item (name key : string) (x : value) : M unit :=
  w ← get_world;
  sec ← lift (py_getitem (memory_state w) name);
  sec' ← lift (py_setitem sec key x);
  ms' ← lift (py_setitem (memory_state w) name sec');
  modify (set_memory_state ms').

(** ** core.py *)

(** The table [self.section_dependencies], in declaration order.  It is
    assigned once in [__init__] and never changed. *)
Definition section_dependencies : list (string * list string) :=
  [ ("projectInfo", []);
    ("productContext", ["projectInfo"]);
    ("systemPatterns", ["projectInfo"]);
    ("standards", ["systemPatterns"]);
    ("technologies", ["projectInfo"]);
    ("tasks", ["productContext"; "systemPatterns"; "technologies"]);
    ("changeHistory", []) ].

Definition dict (l : list (string * value)) : value := VDict (list_to_map l).

(** The literal [initial_state] of [init_memory_bank]. *)
Definition initial_state (name : string) (created lastUpdated : value) : value :=
  dict [
    ("metadata", dict [ ("created", created);
                        ("lastUpdated", lastUpdated);
                        ("version", VStr "1.0.0") ]);
    ("projectInfo", dict [ ("name", VStr name);
                           ("description", VStr "");
                           ("content", VStr "");
                           ("status", VStr "Not Started") ]);
    ("productContext", dict [ ("content", VStr ""); ("status", VStr "Pending") ]);
    ("systemPatterns", dict [ ("content", VStr ""); ("status", VStr "Pending") ]);
    ("technologies", dict [ ("content", VStr "");
                            ("items", VList []);
                            ("status", VStr "Pending") ]);
    ("tasks", dict [ ("current", dict [ ("description", VStr "");
                                        ("status", VStr "Pending");
                                        ("steps", VList []);
                                        ("activeContext", VStr "") ]);
                     ("history", VList []) ]);
    ("standards", dict [ ("content", VStr "");
                         ("items", VList []);
                         ("status", VStr "Pending") ]);
    ("changeHistory", VList []) ].

(** Body of [init_memory_bank], with the final call [self.load_memory_state()]
    as a parameter.  [mkdir(exist_ok=True)] leaves the files as they are:
    the directory is created by the constructor and nothing removes it. *)
Definition init_memory_bank_body (load : M unit) : M unit :=
  w ← get_world;
  match state_file w with
  | Some _ => mret tt
  | None =>
      created ← now;
      lastUpdated ← now;
      modify (set_state_file
                (Some (JsonText (initial_state (project_root w) created lastUpdated))))
  end ;;
  load.

(** [with open(state_file, 'r') as f: json.load(f)]. *)
Definition read_state_file : M value :=
  w ← get_world;
  match state_file w with
  | Some (JsonText v) => mret v
  | Some (Garbage _) => raise JSONDecodeError
  | None => raise FileNotFoundError
  end.

(** [try: body except (JSONDecodeError, FileNotFoundError): handler]. *)
Definition decode_or_missing (e : exn) : bool :=
  match e with
  | JSONDecodeError | FileNotFoundError => true
  | _ => false
  end.

Definition try_except {A : Type} (body : M A) (catches : exn → bool)
    (handler : M A) : M A := λ w,
  match body w with
  | (Ok a, w') => (Ok a, w')
  | (Raise e, w') => if catches e then handler w' else (Raise e, w')
  end.

(** [load_memory_state].  The handler calls [init_memory_bank], which
    calls [load_memory_state] again: [depth] is the number of such nested
    calls the interpreter still allows before it raises [RecursionError]. *)
Fixpoint load_memory_state (depth : nat) : M unit :=
  match depth with
  | 0 => raise RecursionError
  | S depth' =>
      try_except
        (v ← read_state_file; modify (set_memory_state v))
        decode_or_missing
        (init_memory_bank_body (load_memory_state depth'))
  end.

Definition init_memory_bank (depth : nat) : M unit :=
  init_memory_bank_body (load_memory_state depth).

(** [MemoryBankManager.__init__]: [self.memory_state = {}], then
    [init_memory_bank]. *)
Definition MemoryBankManager (depth : nat) : M unit :=
  modify (set_memory_state (VDict ∅)) ;;
  init_memory_bank depth.

(** [save_memory_state].  The right-hand side of the first assignment is
    evaluated before its target is indexed. *)
Definition save_memory_state : M unit :=
  stamp ← now;
  set_section_item "metadata" "lastUpdated" stamp ;;
  w ← get_world;
  match state_file w with
  | Some f => modify (set_backup_file (Some f))
  | None => mret tt
  end ;;
  w ← get_world;
  modify (set_state_file (Some (JsonText (memory_state w)))).

(** ** sections.py *)

(** [get_section]: the raw value, or [None]. *)
Definition get_section (section_name : string) : M value :=
  w ← get_world;
  present ← lift (py_contains section_name (memory_state w));
  if present : bool then lift (py_getitem (memory_state w) section_name)
  else mret VNull.

(** [metadata and key in metadata], with its short circuit. *)
Definition and_contains (metadata : value) (key : string) : outcome bool :=
  if truthy metadata then py_contains key metadata else Ok false.

(** [self.memory_state[name]["current"][key] = x]. *)
Definition set_current_item (name key : string) (x : value) : M unit :=
  w ← get_world;
  sec ← lift (py_getitem (memory_state w) name);
  cur ← lift (py_getitem sec "current");
  cur' ← lift (py_setitem cur key x);
  sec' ← lift (py_setitem sec "current" cur');
  ms' ← lift (py_setitem (memory_state w) name sec');
  modify (set_memory_state ms').

(** [self.memory_state[name]["history"].append(task)]. *)
Definition append_history (name : string) (task : value) : M unit :=
  w ← get_world;
  sec ← lift (py_getitem (memory_state w) name);
  hist ← lift (py_getitem sec "history");
  hist' ← lift (py_append hist task);
  sec' ← lift (py_setitem sec "history" hist');
  ms' ← lift (py_setitem (memory_state w) name sec');
  modify (set_memory_state ms').

(** The branches of [update_section] that write the section (lines 13-39). *)
Definition write_section (section_name : string) (content metadata : value) : M unit :=
  if String.eqb section_name "projectInfo" then
    set_section_item section_name "content" content ;;
    if truthy metadata then
      items ← lift (py_items metadata);
      for_each items (λ kv, set_section_item section_name kv.1 kv.2)
    else mret tt
  else if String.eqb section_name "technologies" then
    set_section_item section_name "content" content
  else if String.eqb section_name "tasks" then
    has_context ← lift (and_contains metadata "activeContext");
    (if has_context : bool then
       x ← lift (py_getitem metadata "activeContext");
       set_current_item section_name "activeContext" x
     else mret tt) ;;
    has_progress ← lift (and_contains metadata "progress");
    if has_progress : bool then
      timestamp ← now;
      description ← lift (py_get metadata "description" (VStr "Task completed"));
      progress ← lift (py_getitem metadata "progress");
      append_history section_name
        (dict [ ("timestamp", timestamp); ("description", description);
                ("progress", progress); ("status", VStr "Completed") ])
    else mret tt
  else
    w ← get_world;
    sec ← lift (py_getitem (memory_state w) section_name);
    if is_dict sec then set_section_item section_name "content" content
    else mret tt.

(** The status step of [update_section] (lines 41-43). *)
Definition mark_complete (section_name : string) : M unit :=
  w ← get_world;
  sec ← lift (py_getitem (memory_state w) section_name);
  if is_dict sec then
    has_status ← lift (py_contains "status" sec);
    if has_status : bool then set_section_item section_name "status" (VStr "Complete")
    else mret tt
  else mret tt.

Definition update_section (section_name : string) (content metadata : value) : M bool :=
  w ← get_world;
  present ← lift (py_contains section_name (memory_state w));
  if present : bool then
    write_section section_name content metadata ;;
    mark_complete section_name ;;
    save_memory_state ;;
    mret true
  else mret false.

(** The loop of [check_dependencies_complete] over the prerequisites. *)
Fixpoint dependencies_loop (ms : value) (dependencies : list string) : outcome bool :=
  match dependencies with
  | [] => Ok true
  | dep :: rest =>
      present ← py_contains dep ms;
      if negb present then Ok false
      else
        v ← py_getitem ms dep;
        if negb (is_dict v) then dependencies_loop ms rest
        else
          has_status ← py_contains "status" v;
          if negb has_status then dependencies_loop ms rest
          else
            status ← py_getitem v "status";
            if negb (str_eq status "Complete") then Ok false
            else dependencies_loop ms rest
  end.

(** Lookup in a dictionary literal. *)
Fixpoint assoc {A : Type} (k : string) (l : list (string * A)) : option A :=
  match l with
  | [] => None
  | (k', x) :: l' => if String.eqb k k' then Some x else assoc k l'
  end.

Definition check_dependencies_complete (ms : value) (section_name : string) : outcome bool :=
  match assoc section_name section_dependencies with
  | Some dependencies => dependencies_loop ms dependencies
  | None => Ok false
  end.

(** The loop of [get_ready_sections]; [ready_sections] is the list built
    so far. *)
Fixpoint ready_loop (ms : value) (names ready_sections : list string) : outcome (list string) :=
  match names with
  | [] => Ok ready_sections
  | section_name :: rest =>
      present ← py_contains section_name ms;
      if negb present then ready_loop ms rest ready_sections
      else
        v ← py_getitem ms section_name;
        if negb (is_dict v) then ready_loop ms rest ready_sections
        else
          has_status ← py_contains "status" v;
          if negb has_status then ready_loop ms rest ready_sections
          else
            status ← py_getitem v "status";
            if negb (str_eq status "Complete") then
              complete ← check_dependencies_complete ms section_name;
              if complete : bool then ready_loop ms rest (ready_sections ++ [section_name])
              else ready_loop ms rest ready_sections
            else ready_loop ms rest ready_sections
  end.

Definition get_ready_sections (ms : value) : outcome (list string) :=
  ready_loop ms (section_dependencies.*1) [].

(** [log_change]. *)
Definition log_change (description details : value) : M unit :=
  timestamp ← now;
  let change := dict [ ("timestamp", timestamp);
                       ("description", description);
                       ("details", if truthy details then details else VDict ∅) ] in
  w ← get_world;
  present ← lift (py_contains "changeHistory" (memory_state w));
  (if negb present then
     ms' ← lift (py_setitem (memory_state w) "changeHistory" (VList []));
     modify (set_memory_state ms')
   else
     h ← lift (py_getitem (memory_state w) "changeHistory");
     if negb (is_list h) then
       ms' ← lift (py_setitem (memory_state w) "changeHistory" (VList []));
       modify (set_memory_state ms')
     else mret tt) ;;
  w ← get_world;
  h ← lift (py_getitem (memory_state w) "changeHistory");
  h' ← lift (py_append h change);
  ms' ← lift (py_setitem (memory_state w) "changeHistory" h');
  modify (set_memory_state ms') ;;
  save_memory_state.

(** ** exporters.py *)

(** *** Text files *)

Definition LF : ascii := "010"%char.
Definition CR : ascii := "013"%char.
Definition nl : string := String LF "".

(** What [open(p, 'r').read()] returns for the stored characters: in text
    mode Python reads with universal newlines, so a carriage return, alone
    or before a line feed, comes back as one line feed.  Writing in text
    mode stores the characters as they are (the line separator of the
    platform is taken to be the line feed). *)
Fixpoint universal_newlines (s : string) : string :=
  match s with
  | EmptyString => EmptyString
  | String c rest =>
      if Ascii.eqb c CR then
        String LF
          match rest with
          | String c' rest' =>
              if Ascii.eqb c' LF then universal_newlines rest'
              else universal_newlines rest
          | EmptyString => EmptyString
          end
      else String c (universal_newlines rest)
  end.

(** [open(p, 'w')]: the file is created or truncated. *)
Definition open_write (p : path) : M unit :=
  modify (λ w, set_files (<[p := ""]> (files w)) w).

(** [f.write(x)] on the file opened at [p]: only a string can be written. *)
Definition write (p : path) (x : value) : M unit :=
  match x with
  | VStr s =>
      modify (λ w, set_files (<[p := default "" (files w !! p) ++ s]> (files w)) w)
  | _ => raise TypeError
  end.

(** [os.path.exists(p)]. *)
Definition exists_file (p : path) : M bool :=
  w ← get_world; mret (bool_decide (is_Some (files w !! p))).

(** [with open(p, 'r') as f: f.read()]. *)
Definition read_text (p : path) : M string :=
  w ← get_world;
  match files w !! p with
  | Some s => mret (universal_newlines s)
  | None => raise FileNotFoundError
  end.

Section Exporters.

(** [str(x)] for a value that is not a string, as an f-string renders it. *)
Variable str_of : value → string.

Definition format (x : value) : string :=
  match x with
  | VStr s => s
  | _ => str_of x
  end.

(** The local dictionary [mapping] of [export_markdown], in order. *)
Definition export_mapping : list (string * string) :=
  [ ("projectInfo", "projectbrief.md");
    ("productContext", "productContext.md");
    ("systemPatterns", "systemPatterns.md");
    ("technologies", "techContext.md");
    ("tasks", "activeContext.md") ].

(** The local dictionary [mapping] of [import_markdown], in order. *)
Definition import_mapping : list (string * string) :=
  [ ("projectbrief.md", "projectInfo");
    ("productContext.md", "productContext");
    ("systemPatterns.md", "systemPatterns");
    ("techContext.md", "technologies");
    ("activeContext.md", "tasks");
    ("progress.md", "tasks") ].

(** The text accumulated by the loop over [tasks.history]: one block per
    entry that is a dictionary with a [progress] field. *)
Fixpoint progress_blocks (history : list value) : string :=
  match history with
  | [] => ""
  | task :: rest =>
      match task with
      | VDict t =>
          match t !! "progress" with
          | Some progress =>
              "## " ++ format (default (VStr "Task") (t !! "description")) ++ nl
                ++ format progress ++ nl ++ nl
          | None => ""
          end
      | _ => ""
      end ++ progress_blocks rest
  end.

(** The two files written for a [tasks] section that is a dictionary; the
    result is the last value of the local variable [md_file]. *)
Definition export_tasks : M path :=
  w ← get_world;
  tasks ← lift (py_getitem (memory_state w) "tasks");
  let md_file := (memory_path w, "activeContext.md") in
  open_write md_file ;;
  has_current ← lift (py_contains "current" tasks);
  (if has_current : bool then
     current ← lift (py_getitem tasks "current");
     if is_dict current then
       active_context ← lift (py_get current "activeContext" (VStr ""));
       write md_file active_context
     else mret tt
   else mret tt) ;;
  let md_file := (memory_path w, "progress.md") in
  open_write md_file ;;
  has_history ← lift (py_contains "history" tasks);
  blocks ←
    (if has_history : bool then
       history ← lift (py_getitem tasks "history");
       match history with
       | VList l => mret (progress_blocks l)
       | _ => mret ""
       end
     else mret "") ;
  write md_file (VStr ("# Project Progress" ++ nl ++ nl ++ blocks)) ;;
  mret md_file.

(** The file written for any other mapped section that is a dictionary. *)
Definition export_regular (section_name filename : string) : M path :=
  w ← get_world;
  let md_file := (memory_path w, filename) in
  open_write md_file ;;
  section ← lift (py_getitem (memory_state w) section_name);
  has_content ← lift (py_contains "content" section);
  (if has_content : bool then
     content ← lift (py_getitem section "content");
     write md_file content
   else
     write md_file (VStr ("# " ++ section_name ++ nl ++ nl ++ "*No content yet*"))) ;;
  mret md_file.

(** What [export_markdown] returns: a file, the directory, or [None] when
    the function falls off its end. *)
Inductive exported : Type :=
  | ExportedFile (p : path)
  | ExportedDir (d : string)
  | ExportedNone.

(** [name == "tasks" and isinstance(self.memory_state[name], dict)]. *)
Definition is_tasks_dict (name : string) : M bool :=
  if String.eqb name "tasks" then
    w ← get_world;
    sec ← lift (py_getitem (memory_state w) name);
    mret (is_dict sec)
  else mret false.

(** One round of the loop of the export of every section. *)
Definition export_entry (entry : string * string) : M unit :=
  let '(name, filename) := entry in
  w ← get_world;
  present ← lift (py_contains name (memory_state w));
  if present : bool then
    tasks_dict ← is_tasks_dict name;
    if tasks_dict : bool then export_tasks ;; mret tt
    else
      sec ← lift (py_getitem (memory_state w) name);
      if is_dict sec then export_regular name filename ;; mret tt
      else mret tt
  else mret tt.

(** [export_markdown(memory_manager, section_name=None)].  The local
    variable [md_file] of the single-section branch is an option: [None]
    while it has not been assigned. *)
Definition export_markdown (section_name : option string) : M exported :=
  match section_name with
  | Some name =>
      if String.eqb name "" then
        for_each export_mapping export_entry ;;
        w ← get_world; mret (ExportedDir (memory_path w))
      else
        w ← get_world;
        present ← lift (py_contains name (memory_state w));
        if present : bool then
          tasks_dict ← is_tasks_dict name;
          md_file ←
            (if tasks_dict : bool then Some <$> export_tasks
             else
               match assoc name export_mapping with
               | Some filename =>
                   sec ← lift (py_getitem (memory_state w) name);
                   if is_dict sec then Some <$> export_regular name filename
                   else mret None
               | None => mret None
               end) ;
          match md_file with
          | Some p => mret (ExportedFile p)
          | None => raise (UnboundLocalError "md_file")
          end
        else mret ExportedNone
  | None =>
      for_each export_mapping export_entry ;;
      w ← get_world; mret (ExportedDir (memory_path w))
  end.

(** The first file of [import_mapping] whose section is [section_name]. *)
Fixpoint derive_file (section_name : string) (mapping : list (string * string)) : option string :=
  match mapping with
  | [] => None
  | (md_file, section) :: rest =>
      if String.eqb section section_name then Some md_file
      else derive_file section_name rest
  end.

(** [except:] without a class catches everything. *)
Definition any_exception (e : exn) : bool := true.

(** The branch of [import_markdown] for [activeContext.md] and
    [progress.md]: the text goes to [tasks.current[key]]. *)
Definition import_current (key content : string) : M bool :=
  w ← get_world;
  has_tasks ← lift (py_contains "tasks" (memory_state w));
  if has_tasks : bool then
    tasks ← lift (py_getitem (memory_state w) "tasks");
    if is_dict tasks then
      has_current ← lift (py_contains "current" tasks);
      if has_current : bool then
        current ← lift (py_getitem tasks "current");
        if is_dict current then
          set_current_item "tasks" key (VStr content) ;;
          save_memory_state ;;
          mret true
        else mret false
      else mret false
    else mret false
  else mret false.

(** [import_markdown(memory_manager, section_name, file_path=None)]. *)
Definition import_markdown (section_name : string) (file_path : option path) : M bool :=
  w ← get_world;
  let file_path :=
    match file_path with
    | Some p => Some p
    | None => (λ md_file, (memory_path w, md_file)) <$> derive_file section_name import_mapping
    end in
  match file_path with
  | None => mret false
  | Some p =>
      found ← exists_file p;
      if negb found then mret false
      else
        read ← try_except (Some <$> read_text p) any_exception (mret None);
        match read with
        | None => mret false
        | Some content =>
            let file_name := p.2 in
            if String.eqb file_name "activeContext.md" then
              import_current "activeContext" content
            else if String.eqb file_name "progress.md" then
              import_current "progress" content
            else
              match assoc file_name import_mapping with
              | Some section_name =>
                  w ← get_world;
                  present ← lift (py_contains section_name (memory_state w));
                  if present : bool then
                    sec ← lift (py_getitem (memory_state w) section_name);
                    if is_dict sec then
                      set_section_item section_name "content" (VStr content) ;;
                      set_section_item section_name "status" (VStr "Complete") ;;
                      save_memory_state ;;
                      mret true
                    else mret false
                  else mret false
              | None => mret false
              end
        end
  end.

End Exporters.

(** ** workflows.py *)

(** The dictionary returned by [enter_plan_mode]. *)
Record plan_status : Type := PlanStatus {
  plan_mode : string;
  incomplete_sections : list string;
  ready_sections : list string;
  all_complete : bool
}.

(** The loop of [enter_plan_mode]; [incomplete] is the list built so far. *)
Fixpoint incomplete_loop (ms : value) (names incomplete : list string) : outcome (list string) :=
  match names with
  | [] => Ok incomplete
  | name :: rest =>
      present ← py_contains name ms;
      if negb present then incomplete_loop ms rest (incomplete ++ [name])
      else
        v ← py_getitem ms name;
        if negb (is_dict v) then incomplete_loop ms rest (incomplete ++ [name])
        else
          has_status ← py_contains "status" v;
          if negb has_status then incomplete_loop ms rest (incomplete ++ [name])
          else
            status ← py_getitem v "status";
            if negb (str_eq status "Complete") then
              incomplete_loop ms rest (incomplete ++ [name])
            else incomplete_loop ms rest incomplete
  end.

Definition plan_required_sections : list string :=
  ["projectInfo"; "productContext"; "systemPatterns"; "technologies"].

Definition enter_plan_mode (ms : value) : outcome plan_status :=
  incomplete ← incomplete_loop ms plan_required_sections [];
  ready ← get_ready_sections ms;
  mret (PlanStatus "Plan" incomplete ready (Nat.eqb (List.length incomplete) 0)).

(** The dictionary returned by [enter_act_mode]. *)
Record act_status : Type := ActStatus {
  act_mode : string;
  all_ready : bool;
  active_context : value;
  progress : list value
}.

(** The first loop of [enter_act_mode]; [all_sections_ready] is the flag so far. *)
Fixpoint ready_flag_loop (ms : value) (names : list string) (all_sections_ready : bool) : outcome bool :=
  match names with
  | [] => Ok all_sections_ready
  | name :: rest =>
      present ← py_contains name ms;
      if negb present then ready_flag_loop ms rest false
      else
        v ← py_getitem ms name;
        if negb (is_dict v) then ready_flag_loop ms rest false
        else
          has_status ← py_contains "status" v;
          if negb has_status then ready_flag_loop ms rest false
          else
            status ← py_getitem v "status";
            if negb (str_eq status "Complete") then ready_flag_loop ms rest false
            else ready_flag_loop ms rest all_sections_ready
  end.

Definition act_required_sections : list string :=
  ["projectInfo"; "productContext"; "technologies"].

(** ["tasks" in ms and isinstance(ms["tasks"], dict)], with its short circuit. *)
Definition has_tasks_dict (ms : value) : outcome bool :=
  present ← py_contains "tasks" ms;
  if present : bool then
    tasks ← py_getitem ms "tasks";
    mret (is_dict tasks)
  else mret false.

(** [key in ms["tasks"] and isinstance(ms["tasks"][key], dict)] and the like:
    the field [key] of [tasks] when it is there and passes [test]. *)
Definition tasks_field (ms : value) (key : string) (test : value → bool) : outcome (option value) :=
  tasks ← py_getitem ms "tasks";
  present ← py_contains key tasks;
  if present : bool then
    x ← py_getitem tasks key;
    mret (if test x then Some x else None)
  else mret None.

(** The loop over [tasks.history] of [enter_act_mode]. *)
Fixpoint progress_loop (history progress_items : list value) : list value :=
  match history with
  | [] => progress_items
  | task :: rest =>
      match task with
      | VDict t =>
          match t !! "progress" with
          | Some p => progress_loop rest (progress_items ++ [p])
          | None => progress_loop rest progress_items
          end
      | _ => progress_loop rest progress_items
      end
  end.

Definition enter_act_mode (ms : value) : outcome act_status :=
  all_sections_ready ← ready_flag_loop ms act_required_sections true;
  tasks_ok ← has_tasks_dict ms;
  active_context ←
    (if tasks_ok : bool then
       current ← tasks_field ms "current" is_dict;
       match current with
       | Some c => py_get c "activeContext" (VStr "")
       | None => mret (VStr "")
       end
     else mret (VStr ""));
  tasks_ok ← has_tasks_dict ms;
  progress_items ←
    (if tasks_ok : bool then
       history ← tasks_field ms "history" is_list;
       match history with
       | Some (VList l) => mret (progress_loop l [])
       | _ => mret []
       end
     else mret []);
  mret (ActStatus "Act" all_sections_ready active_context progress_items).

(** The dictionary returned by [update_all_memory_bank]. *)
Record review : Type := Review {
  review_action : string;
  review_sections : list string;
  current_state : gmap string value
}.

(** [name in ms and isinstance(ms[name], dict) and "status" in ms[name]]. *)
Definition has_status_field (ms : value) (name : string) : outcome bool :=
  present ← py_contains name ms;
  if present : bool then
    v ← py_getitem ms name;
    if is_dict v then py_contains "status" v else mret false
  else mret false.

(** The loop of [update_all_memory_bank] over the sections to check. *)
Fixpoint review_loop (ms : value) (names : list string) (current : gmap string value) : outcome (gmap string value) :=
  match names with
  | [] => Ok current
  | name :: rest =>
      known ← has_status_field ms name;
      if known : bool then
        v ← py_getitem ms name;
        status ← py_getitem v "status";
        review_loop ms rest (<[name := status]> current)
      else review_loop ms rest (<[name := VStr "Unknown"]> current)
  end.

Definition sections_to_check : list string :=
  ["projectInfo"; "productContext"; "systemPatterns"; "technologies"; "standards"].

Definition update_all_memory_bank (ms : value) : outcome review :=
  current ← review_loop ms sections_to_check ∅;
  tasks_ok ← has_tasks_dict ms;
  tasks_state ←
    (if tasks_ok : bool then
       tasks ← py_getitem ms "tasks";
       has_current ← py_contains "current" tasks;
       if has_current : bool then
         c ← py_getitem tasks "current";
         mret (if truthy c then "Active" else "None")
       else mret "None"
     else mret "Unknown");
  mret (Review "review_all"
          ["projectInfo"; "productContext"; "systemPatterns"; "technologies";
           "tasks"; "standards"]
          (<["tasks" := VStr tasks_state]> current)).

(** * Notions used by the statements *)

(** The world after a successful [save_memory_state]. *)
Definition saved (d m : gmap string value) (w : world) : world :=
  let ms := VDict (<["metadata" := VDict (<["lastUpdated" := VStr (clock w (ticks w))]> m)]> d) in
  World (project_root w) (memory_path w) ms (Some (JsonText ms))
        (match state_file w with Some f => Some f | None => backup_file w end)
        (files w) (clock w) (S (ticks w)).

(** The [metadata] argument as documented: [None] or a dictionary. *)
Definition mapping_or_none (v : value) : Prop :=
  v = VNull ∨ ∃ md, v = VDict md.

(** The inner fields of [tasks] that the [metadata] argument makes
    [update_section] write: [current] a mapping when [activeContext] is
    given, [history] a list when [progress] is given. *)
Definition tasks_shape_ok (sec : gmap string value) (metadata : value) : Prop :=
  (and_contains metadata "activeContext" = Ok true →
     ∃ cur, sec !! "current" = Some (VDict cur))
  ∧ (and_contains metadata "progress" = Ok true →
     ∃ h, sec !! "history" = Some (VList h)).

(** The entries [log_change] keeps: those of [changeHistory] when it is a
    list, none otherwise. *)
Definition prior_history (d : gmap string value) : list value :=
  match d !! "changeHistory" with
  | Some (VList l) => l
  | _ => []
  end.

(** The entry [log_change] builds. *)
Definition change_entry (timestamp description details : value) : value :=
  dict [ ("timestamp", timestamp);
         ("description", description);
         ("details", if truthy details then details else VDict ∅) ].

(** A prerequisite passes the check: it is present, and if it is a mapping
    with a [status], that status is ["Complete"]. *)
Definition prerequisite_passes (d : gmap string value) (dep : string) : Prop :=
  ∃ v, d !! dep = Some v
     ∧ ∀ sec st, v = VDict sec → sec !! "status" = Some st → st = VStr "Complete".

(** A section can be listed: a mapping whose [status] is not ["Complete"]. *)
Definition incomplete_section (d : gmap string value) (name : string) : Prop :=
  ∃ sec st, d !! name = Some (VDict sec) ∧ sec !! "status" = Some st
          ∧ st ≠ VStr "Complete".

(** What the loop of [get_ready_sections] keeps of a name. *)
Definition listed (d : gmap string value) (name : string) : Prop :=
  incomplete_section d name
  ∧ ∃ deps, assoc name section_dependencies = Some deps
          ∧ ∀ dep, dep ∈ deps → prerequisite_passes d dep.

(** Worlds that agree on the manager's state and directory and on the
    file [f] of that directory. *)
Definition same_but_files (f : string) (w w' : world) : Prop :=
  memory_state w' = memory_state w
  ∧ memory_path w' = memory_path w
  ∧ files w' !! (memory_path w, f) = files w !! (memory_path w, f).

(** Every run of [m] ends in a world related to the one it started in. *)
Definition frame (R : relation world) {A : Type} (m : M A) : Prop :=
  ∀ w, R w (m w).2.

(** The string holds a carriage return. *)
Fixpoint has_cr (s : string) : bool :=
  match s with
  | EmptyString => false
  | String c rest => Ascii.eqb c CR || has_cr rest
  end.

(** The [content] field of a section of the in-memory document. *)
Definition content_of (w : world) (name : string) : option value :=
  match memory_state w with
  | VDict d =>
      match d !! name with
      | Some (VDict sec) => sec !! "content"
      | _ => None
      end
  | _ => None
  end.

(** ** The claims that fail, as the specification words them *)

(** Every section listed by [get_ready_sections] has each prerequisite
    present with [status] equal to ["Complete"]. *)
Definition ready_prerequisites_complete (d : gmap string value) : Prop :=
  ∀ ready name deps dep,
    get_ready_sections (VDict d) = Ok ready → name ∈ ready →
    assoc name section_dependencies = Some deps → dep ∈ deps →
    ∃ sec, d !! dep = Some (VDict sec) ∧ sec !! "status" = Some (VStr "Complete").

(** [update_section] on a section that is a mapping with a [status]
    returns [True] and leaves the status ["Complete"]. *)
Definition update_always_completes (w : world) (name : string)
    (content metadata : value) : Prop :=
  ∀ d sec, memory_state w = VDict d → d !! name = Some (VDict sec) →
    is_Some (sec !! "status") →
    ∃ w' d' sec',
      update_section name content metadata w = (Ok true, w')
      ∧ memory_state w' = VDict d'
      ∧ d' !! name = Some (VDict sec')
      ∧ sec' !! "status" = Some (VStr "Complete").

(** [log_change] appends one entry and the document is persisted. *)
Definition log_change_always_persists (w : world) (description details : value) : Prop :=
  ∀ d, memory_state w = VDict d →
    let w' := (log_change description details w).2 in
    ∃ d' entry,
      memory_state w' = VDict d'
      ∧ d' !! "changeHistory" = Some (VList (prior_history d ++ [entry]))
      ∧ state_file w' = Some (JsonText (VDict d')).

(** Export then import of [projectbrief.md] restores the [content] of
    [projectInfo], whatever it is. *)
Definition roundtrip_restores_content (str_of : value → string) (w : world) : Prop :=
  ∀ d sec c, memory_state w = VDict d → d !! "projectInfo" = Some (VDict sec) →
    sec !! "content" = Some c →
    content_of
      (import_markdown "projectInfo" None
         (export_markdown str_of (Some "projectInfo") w).2).2
      "projectInfo" = Some c.

(** On a document without [metadata], each mutating operation raises
    [KeyError]. *)
Definition persist_always_raises (w : world) : Prop :=
  ∀ d, memory_state w = VDict d → d !! "metadata" = None →
    (∀ name content metadata, ∃ w',
       update_section name content metadata w = (Raise (KeyError "metadata"), w'))
    ∧ (∀ description details, ∃ w',
         log_change description details w = (Raise (KeyError "metadata"), w'))
    ∧ (∀ name file_path, ∃ w',
         import_markdown name file_path w = (Raise (KeyError "metadata"), w')).

(** ** Sample worlds *)

(** A rendering of non-string values; no sample below reaches it. *)
Definition plain_str : value → string := λ _, "".

(** A clock that always shows the same instant. *)
Definition stamp : nat → string := λ _, "2025-01-01T00:00:00".

(** A project whose [memory-bank] directory holds no state file. *)
Definition fresh_world : world :=
  World "demo" "demo/memory-bank" (VDict ∅) None None ∅ stamp 0.

(** The manager right after its construction on [fresh_world]. *)
Definition default_world : world := (MemoryBankManager 1 fresh_world).2.

(** A manager whose state was loaded from a state file holding [ms]. *)
Definition loaded (ms : value) : world :=
  World "demo" "demo/memory-bank" ms (Some (JsonText ms)) None ∅ stamp 0.

(** A project whose state file is not JSON. *)
Definition corrupt_world : world :=
  World "demo" "demo/memory-bank" (VDict ∅) (Some (Garbage "{")) None ∅ stamp 0.

(** A well-formed [metadata] section. *)
Definition metadata_section : value :=
  dict [ ("created", VStr "2025-01-01T00:00:00");
         ("lastUpdated", VStr "2025-01-01T00:00:00");
         ("version", VStr "1.0.0") ].

(** A section waiting for its content. *)
Definition pending_section : gmap string value :=
  list_to_map [ ("content", VStr ""); ("status", VStr "Pending") ].

(** Valid JSON, but without the [metadata] section. *)
Definition doc_no_metadata : gmap string value :=
  list_to_map
    [ ("projectInfo", VDict pending_section); ("changeHistory", VList []) ].

(** [projectInfo] carries no [status]. *)
Definition doc_no_status : gmap string value :=
  list_to_map
    [ ("metadata", metadata_section);
      ("projectInfo", dict [ ("name", VStr "demo"); ("content", VStr "") ]);
      ("productContext", dict [ ("content", VStr ""); ("status", VStr "Pending") ]) ].

(** [projectInfo] is a string, and [tasks] lacks [current]. *)
Definition doc_malformed : gmap string value :=
  list_to_map
    [ ("metadata", metadata_section);
      ("projectInfo", VStr "legacy brief");
      ("tasks", dict [ ("history", VList []) ]) ].

(** A [projectInfo] section with content [c], and a document around it. *)
Definition brief_section (c : value) : gmap string value :=
  list_to_map
    [ ("name", VStr "demo"); ("description", VStr "");
      ("content", c); ("status", VStr "In Progress") ].

Definition doc_with_content (c : value) : gmap string value :=
  list_to_map
    [ ("metadata", metadata_section); ("projectInfo", VDict (brief_section c)) ].

(** Two lines separated by a carriage return, and by a line feed. *)
Definition text_cr : string := "a" ++ String CR "b".
Definition text_lf : string := "a" ++ String LF "b".

(** A manager holding a two-line brief, and the world after the export of
    every section. *)
Definition brief_world : world := loaded (VDict (doc_with_content (VStr text_lf))).

Definition exported_world : world := (export_markdown plain_str None brief_world).2.

(** * Notions used by the further properties *)

(** A section after the status step of [update_section]. *)
Definition completed (sec : gmap string value) : gmap string value :=
  if bool_decide (is_Some (sec !! "status")) then <["status" := VStr "Complete"]> sec
  else sec.

(** The record [update_section] appends to [tasks.history]. *)
Definition history_entry (timestamp : value) (md : gmap string value) (progress : value) : value :=
  dict [ ("timestamp", timestamp);
         ("description", default (VStr "Task completed") (md !! "description"));
         ("progress", progress);
         ("status", VStr "Completed") ].

(** The section [name] is a mapping whose [status] is ["Complete"]. *)
Definition section_complete (d : gmap string value) (name : string) : bool :=
  match d !! name with
  | Some (VDict sec) =>
      match sec !! "status" with
      | Some st => str_eq st "Complete"
      | None => false
      end
  | _ => false
  end.

(** The [status] of the section [name] when it is a mapping that has one. *)
Definition status_or_unknown (d : gmap string value) (name : string) : value :=
  match d !! name with
  | Some (VDict sec) => default (VStr "Unknown") (sec !! "status")
  | _ => VStr "Unknown"
  end.

(** [tasks.current] when [tasks] and [current] are mappings. *)
Definition current_task (d : gmap string value) : option (gmap string value) :=
  match d !! "tasks" with
  | Some (VDict t) =>
      match t !! "current" with
      | Some (VDict c) => Some c
      | _ => None
      end
  | _ => None
  end.

(** The entries of [tasks.history] when [tasks] is a mapping and [history]
    a list. *)
Definition task_history (d : gmap string value) : list value :=
  match d !! "tasks" with
  | Some (VDict t) =>
      match t !! "history" with
      | Some (VList l) => l
      | _ => []
      end
  | _ => []
  end.

(** The [progress] of a history entry that is a mapping with that field. *)
Definition task_progress (task : value) : option value :=
  match task with
  | VDict t => t !! "progress"
  | _ => None
  end.

(** What [update_all_memory_bank] reports for [tasks]. *)
Definition tasks_state (d : gmap string value) : string :=
  match d !! "tasks" with
  | Some (VDict t) =>
      match t !! "current" with
      | Some c => if truthy c then "Active" else "None"
      | None => "None"
      end
  | _ => "Unknown"
  end.

(** The files [export_markdown] may write. *)
Definition export_files : list string :=
  [ "projectbrief.md"; "productContext.md"; "systemPatterns.md"; "techContext.md";
    "activeContext.md"; "progress.md" ].

(** Worlds that differ at most in files named in [export_files]. *)
Definition export_frame (w w' : world) : Prop :=
  memory_state w' = memory_state w
  ∧ state_file w' = state_file w
  ∧ backup_file w' = backup_file w
  ∧ ticks w' = ticks w
  ∧ memory_path w' = memory_path w
  ∧ ∀ p : path, p.2 ∉ export_files → files w' !! p = files w !! p.

(** The sections that have a markdown file to import from by name. *)
Definition importable_sections : list string :=
  ["projectInfo"; "productContext"; "systemPatterns"; "technologies"; "tasks"].



(** The text written for a mapped section without [content]. *)
Definition placeholder (name : string) : string :=
  "# " ++ name ++ nl ++ nl ++ "*No content yet*".

(** The sections exported to and imported from a file of their own. *)
Definition regular_mapping : list (string * string) :=
  [ ("projectInfo", "projectbrief.md"); ("productContext", "productContext.md");
    ("systemPatterns", "systemPatterns.md"); ("technologies", "techContext.md") ].

(** ** Sample worlds of the further properties *)

(** [systemPatterns] has no [content] yet. *)
Definition doc_no_content : gmap string value :=
  list_to_map
    [ ("metadata", metadata_section);
      ("systemPatterns", dict [ ("status", VStr "Pending") ]) ].

(** The default manager beside an edited [techContext.md] and a
    [progress.md] kept elsewhere, whose two lines a carriage return
    separates. *)
Definition edited_world : world :=
  set_files (<[("demo/memory-bank", "techContext.md") := "Rocq"]>
               (<[("notes", "progress.md") := text_cr]> ∅))
            default_world.

(** * Properties *)

(** ** Running the monad *)

Ltac run :=
  repeat (progress (unfold mbind, M_bind, outcome_bind, mret, M_ret, outcome_ret,
                    fmap, M_fmap, get_world, lift, modify, raise; simpl)).

Lemma bind_ok {A B : Type} (m : M A) (f : A → M B) (w w' : world) (a : A) :
  m w = (Ok a, w') → (m ≫= f) w = f a w'.
Proof. intros H. unfold mbind, M_bind. by rewrite H. Qed.

Lemma bind_raise {A B : Type} (m : M A) (f : A → M B) (w w' : world) (e : exn) :
  m w = (Raise e, w') → (m ≫= f) w = (Raise e, w').
Proof. intros H. unfold mbind, M_bind. by rewrite H. Qed.

Lemma contains_key (d : gmap string value) (k : string) (v : value) :
  d !! k = Some v → py_contains k (VDict d) = Ok true.
Proof. intros H. simpl. rewrite H. by rewrite bool_decide_eq_true_2. Qed.

Lemma contains_no_key (d : gmap string value) (k : string) :
  d !! k = None → py_contains k (VDict d) = Ok false.
Proof.
  intros H. simpl. rewrite H. rewrite bool_decide_eq_false_2; [done|].
  by intros [? ?].
Qed.

(** ** core.py *)

Lemma init_memory_bank_body_present (load : M unit) (w : world) (f : json_file) :
  state_file w = Some f → init_memory_bank_body load w = load w.
Proof. intros H. unfold init_memory_bank_body. run. by rewrite H. Qed.

(** X3.  With a state file that decodes, [load_memory_state] makes the
    decoded value the state, whatever its shape: nothing checks it against
    the expected structure. *)
Lemma load_memory_state_decodes (depth : nat) (w : world) (v : value) :
  state_file w = Some (JsonText v) →
  load_memory_state (S depth) w = (Ok tt, set_memory_state v w).
Proof.
  intros H. simpl. unfold try_except, read_state_file. run. by rewrite H.
Qed.

(** X1 (the part of C1 that holds).  With no state file,
    [load_memory_state] ends normally: the default document, stamped with
    the next two clock readings, is written to the state file and becomes
    the state. *)
Lemma load_memory_state_absent (depth : nat) (w : world) :
  state_file w = None →
  let doc := initial_state (project_root w) (VStr (clock w (ticks w)))
                           (VStr (clock w (S (ticks w)))) in
  load_memory_state (S (S depth)) w =
    (Ok tt, set_memory_state doc (set_state_file (Some (JsonText doc)) (tick (tick w)))).
Proof.
  intros H doc. simpl. unfold try_except, read_state_file. run. rewrite H. simpl.
  unfold init_memory_bank_body, now. run. rewrite H. simpl.
  unfold try_except, read_state_file. by run.
Qed.

(** C1, the case the code misses.  A state file that is not JSON makes
    [load_memory_state] raise [RecursionError], at every nesting depth the
    interpreter allows, with nothing changed: the handler calls
    [init_memory_bank], which writes no default because the file exists,
    and loads again.  The specification asks for a normal return with the
    default document. *)
Theorem load_memory_state_corrupt_recursion (depth : nat) (w : world) (text : string) :
  state_file w = Some (Garbage text) →
  load_memory_state depth w = (Raise RecursionError, w).
Proof.
  induction depth as [|depth IH]; intros H; [done|].
  simpl. unfold try_except, read_state_file. run. rewrite H.
  rewrite (init_memory_bank_body_present _ _ _ H). auto.
Qed.

Lemma set_section_item_dict (w : world) (d sec : gmap string value)
    (name key : string) (x : value) :
  memory_state w = VDict d → d !! name = Some (VDict sec) →
  set_section_item name key x w =
    (Ok tt, set_memory_state (VDict (<[name := VDict (<[key := x]> sec)]> d)) w).
Proof. intros Hw Hs. unfold set_section_item. run. rewrite Hw. simpl. rewrite Hs. done. Qed.

Lemma set_section_item_missing (w : world) (d : gmap string value)
    (name key : string) (x : value) :
  memory_state w = VDict d → d !! name = None →
  set_section_item name key x w = (Raise (KeyError name), w).
Proof. intros Hw Hs. unfold set_section_item. run. rewrite Hw. simpl. rewrite Hs. done. Qed.

Lemma set_section_item_not_dict (w : world) (d : gmap string value)
    (name key : string) (x v : value) :
  memory_state w = VDict d → d !! name = Some v → is_dict v = false →
  set_section_item name key x w = (Raise TypeError, w).
Proof.
  intros Hw Hs Hv. unfold set_section_item. run. rewrite Hw. simpl. rewrite Hs.
  by destruct v.
Qed.

Lemma save_memory_state_ok (w : world) (d m : gmap string value) :
  memory_state w = VDict d → d !! "metadata" = Some (VDict m) →
  save_memory_state w = (Ok tt, saved d m w).
Proof.
  intros Hw Hm. unfold save_memory_state, now. run.
  unfold set_section_item. run. rewrite Hw. simpl. rewrite Hm. simpl.
  unfold saved. by destruct (state_file w).
Qed.

Lemma save_memory_state_no_metadata (w : world) (d : gmap string value) :
  memory_state w = VDict d → d !! "metadata" = None →
  save_memory_state w = (Raise (KeyError "metadata"), tick w).
Proof.
  intros Hw Hm. unfold save_memory_state, now. run.
  unfold set_section_item. run. rewrite Hw. simpl. rewrite Hm. done.
Qed.

(** C5.  For a section name that is not a key of the document,
    [update_section] returns [False] whatever [content] and [metadata] are,
    and the world is the one it started in: the document is unmodified and
    nothing is written. *)
Theorem update_section_unknown_name (w : world) (d : gmap string value)
    (name : string) (content metadata : value) :
  memory_state w = VDict d → d !! name = None →
  update_section name content metadata w = (Ok false, w).
Proof.
  intros Hw Hn. unfold update_section. run.
  rewrite Hw. rewrite (contains_no_key _ _ Hn). done.
Qed.

Lemma assoc_export_not_tasks (name : string) :
  assoc name export_mapping = None → String.eqb name "tasks" = false.
Proof.
  intros H. destruct (String.eqb_spec name "tasks") as [->|]; [done|done].
Qed.

(** C9.  [export_markdown] with a given (non-empty) section name that is a
    key of the document but not of the filename mapping, such as
    ["standards"] or ["changeHistory"], reaches [return md_file] with
    [md_file] never assigned: it raises [UnboundLocalError] and writes
    nothing. *)
Theorem export_markdown_unmapped_unbound (str_of : value → string) (w : world)
    (d : gmap string value) (name : string) :
  memory_state w = VDict d → is_Some (d !! name) → name ≠ "" →
  assoc name export_mapping = None →
  export_markdown str_of (Some name) w = (Raise (UnboundLocalError "md_file"), w).
Proof.
  intros Hw [v Hv] Hne Hmap. unfold export_markdown, is_tasks_dict.
  rewrite Hmap, (assoc_export_not_tasks _ Hmap).
  destruct (String.eqb_spec name "") as [|_]; [done|].
  run. rewrite Hw. by rewrite (contains_key _ _ _ Hv).
Qed.

(** C4.  The manager built on a root with no state file holds the default
    document, has written it to the state file, and [get_ready_sections]
    returns exactly [["projectInfo"]]. *)
Theorem fresh_manager_ready_sections (depth : nat) (w : world) :
  state_file w = None →
  ∃ w', MemoryBankManager (S depth) w = (Ok tt, w')
      ∧ memory_state w' = initial_state (project_root w) (VStr (clock w (ticks w)))
                                        (VStr (clock w (S (ticks w))))
      ∧ state_file w' = Some (JsonText (memory_state w'))
      ∧ get_ready_sections (memory_state w') = Ok ["projectInfo"].
Proof.
  intros H. eexists. split.
  - unfold MemoryBankManager, init_memory_bank, init_memory_bank_body, now. run.
    rewrite H. simpl. unfold try_except, read_state_file. run. reflexivity.
  - simpl. split; [done|]. split; [done|]. vm_compute. reflexivity.
Qed.

(** ** sections.py: [update_section] *)

Lemma and_contains_total (metadata : value) (k : string) :
  mapping_or_none metadata → ∃ b, and_contains metadata k = Ok b.
Proof.
  intros [->|[md ->]]; unfold and_contains; simpl; [by eexists|].
  destruct (negb _); by eexists.
Qed.

Lemma and_contains_true (metadata : value) (k : string) :
  mapping_or_none metadata → and_contains metadata k = Ok true →
  ∃ md x, metadata = VDict md ∧ md !! k = Some x.
Proof.
  intros [->|[md ->]]; unfold and_contains; simpl; [done|].
  destruct (negb _); [|done]. intros [= H].
  apply bool_decide_eq_true_1 in H as [x Hx]. by exists md, x.
Qed.

Lemma world_set_set (ms ms' : value) (w : world) :
  set_memory_state ms (set_memory_state ms' w) = set_memory_state ms w.
Proof. reflexivity. Qed.

(** The metadata loop of the [projectInfo] branch overlays every pair. *)
Lemma overlay_loop (items : list (string * value)) :
  ∀ (w : world) (d sec : gmap string value) (name : string),
  memory_state w = VDict d → d !! name = Some (VDict sec) →
  for_each items (λ kv, set_section_item name kv.1 kv.2) w =
    (Ok tt, set_memory_state
              (VDict (<[name := VDict (foldl (λ s kv, <[kv.1 := kv.2]> s) sec items)]> d)) w).
Proof.
  induction items as [|[k x] items IH]; intros w d sec name Hw Hs; simpl.
  - run. rewrite insert_id; [|done]. rewrite <- Hw. by destruct w.
  - erewrite bind_ok; [|by apply set_section_item_dict].
    erewrite IH; [|reflexivity|apply lookup_insert_eq].
    by rewrite insert_insert_eq.
Qed.

Lemma overlay_keeps_keys (items : list (string * value)) (sec : gmap string value) (k : string) :
  is_Some (sec !! k) → is_Some (foldl (λ s kv, <[kv.1 := kv.2]> s) sec items !! k).
Proof.
  revert sec. induction items as [|[k' x] items IH]; intros sec H; simpl; [done|].
  apply IH. rewrite lookup_insert. case_decide; [by eexists|done].
Qed.

Lemma insert_keeps_key (sec : gmap string value) (k k' : string) (x : value) :
  is_Some (sec !! k) → is_Some (<[k' := x]> sec !! k).
Proof. intros H. rewrite lookup_insert. case_decide; [by eexists|done]. Qed.

(** On a section that is a mapping, with a [metadata] argument that is a
    mapping or [None] and, for [tasks], the inner fields the metadata asks
    for, the writing branches succeed, touch only that section and keep
    its keys. *)
Lemma write_section_ok (w : world) (d sec : gmap string value) (name : string)
    (content metadata : value) :
  memory_state w = VDict d → d !! name = Some (VDict sec) →
  mapping_or_none metadata → (name = "tasks" → tasks_shape_ok sec metadata) →
  ∃ sec' n,
    write_section name content metadata w =
      (Ok tt, set_memory_state (VDict (<[name := VDict sec']> d)) (Nat.iter n tick w))
    ∧ ∀ k, is_Some (sec !! k) → is_Some (sec' !! k).
Proof.
  intros Hw Hs Hmd Htasks. unfold write_section.
  destruct (String.eqb_spec name "projectInfo") as [->|_].
  { erewrite bind_ok; [|by apply set_section_item_dict].
    destruct Hmd as [->|[md ->]]; simpl.
    - exists (<["content" := content]> sec), 0. split; [done|].
      intros k. apply insert_keeps_key.
    - destruct (negb _).
      + run. erewrite overlay_loop; [|reflexivity|apply lookup_insert_eq].
        rewrite insert_insert_eq. eexists _, 0. split; [done|].
        intros k Hk. by apply overlay_keeps_keys, insert_keeps_key.
      + exists (<["content" := content]> sec), 0. split; [done|].
        intros k. apply insert_keeps_key. }
  destruct (String.eqb_spec name "technologies") as [->|_].
  { erewrite set_section_item_dict; [|done..].
    exists (<["content" := content]> sec), 0. split; [done|].
    intros k. apply insert_keeps_key. }
  destruct (String.eqb_spec name "tasks") as [->|_].
  { destruct (Htasks eq_refl) as [Hcur Hhist].
    destruct (and_contains_total metadata "activeContext" Hmd) as [b1 Hb1].
    destruct (and_contains_total metadata "progress" Hmd) as [b2 Hb2].
    run. rewrite Hb1, Hb2.
    destruct b1, b2.
    - destruct (and_contains_true _ _ Hmd Hb1) as (md & x & -> & Hx).
      destruct (and_contains_true _ _ (or_intror (ex_intro _ md eq_refl)) Hb2) as (md' & p & [= <-] & Hp).
      destruct (Hcur Hb1) as [cur Hc]. destruct (Hhist Hb2) as [h Hh].
      simpl. rewrite Hx. unfold set_current_item, append_history, now. run.
      rewrite Hw. simpl. rewrite Hs. simpl. rewrite Hc. simpl.
      rewrite lookup_insert_eq. simpl. rewrite lookup_insert_ne; [|done].
      rewrite Hh. simpl. rewrite Hp. simpl.
      rewrite insert_insert_eq. eexists _, 1. split; [done|].
      intros k Hk. by do 2 apply insert_keeps_key.
    - destruct (and_contains_true _ _ Hmd Hb1) as (md & x & -> & Hx).
      destruct (Hcur Hb1) as [cur Hc].
      simpl. rewrite Hx. unfold set_current_item. run.
      rewrite Hw. simpl. rewrite Hs. simpl. rewrite Hc. simpl.
      eexists _, 0. split; [done|].
      intros k Hk. by apply insert_keeps_key.
    - destruct (and_contains_true _ _ Hmd Hb2) as (md & p & -> & Hp).
      destruct (Hhist Hb2) as [h Hh].
      simpl. unfold append_history, now. run.
      rewrite Hw. simpl. rewrite Hs. simpl. rewrite Hh. simpl. rewrite Hp. simpl.
      eexists _, 1. split; [done|].
      intros k Hk. by apply insert_keeps_key.
    - exists sec, 0. simpl. split; [|done].
      rewrite insert_id; [|done]. rewrite <- Hw. by destruct w. }
  run. rewrite Hw. simpl. rewrite Hs. simpl.
  erewrite set_section_item_dict; [|done..].
  exists (<["content" := content]> sec), 0. split; [done|].
  intros k. apply insert_keeps_key.
Qed.

Lemma mark_complete_dict (w : world) (d sec : gmap string value) (name : string) :
  memory_state w = VDict d → d !! name = Some (VDict sec) →
  ∃ sec',
    mark_complete name w = (Ok tt, set_memory_state (VDict (<[name := VDict sec']> d)) w)
    ∧ (is_Some (sec !! "status") → sec' !! "status" = Some (VStr "Complete"))
    ∧ (∀ k, k ≠ "status" → sec' !! k = sec !! k).
Proof.
  intros Hw Hs. unfold mark_complete. run. rewrite Hw. simpl. rewrite Hs. simpl.
  destruct (sec !! "status") as [st|] eqn:Hst.
  - rewrite bool_decide_eq_true_2; [|by eexists].
    erewrite set_section_item_dict; [|done..].
    eexists. split; [done|]. split; [intros _; apply lookup_insert_eq|].
    intros k Hk. by rewrite lookup_insert_ne.
  - rewrite bool_decide_eq_false_2; [|by intros [? ?]].
    exists sec. split; [|split; [by intros [? ?]|done]].
    rewrite insert_id; [|done]. rewrite <- Hw. by destruct w.
Qed.

Lemma mark_complete_not_dict (w : world) (d : gmap string value) (name : string) (v : value) :
  memory_state w = VDict d → d !! name = Some v → is_dict v = false →
  mark_complete name w = (Ok tt, w).
Proof.
  intros Hw Hs Hv. unfold mark_complete. run. rewrite Hw. simpl. rewrite Hs. simpl.
  by rewrite Hv.
Qed.

(** The steps of [update_section] before the save. *)
Lemma update_steps_ok (w : world) (d sec : gmap string value) (name : string)
    (content metadata : value) :
  memory_state w = VDict d → d !! name = Some (VDict sec) →
  mapping_or_none metadata → (name = "tasks" → tasks_shape_ok sec metadata) →
  ∃ sec' n,
    (write_section name content metadata ;; mark_complete name) w =
      (Ok tt, set_memory_state (VDict (<[name := VDict sec']> d)) (Nat.iter n tick w))
    ∧ (is_Some (sec !! "status") → sec' !! "status" = Some (VStr "Complete")).
Proof.
  intros Hw Hs Hmd Htasks.
  destruct (write_section_ok w d sec name content metadata Hw Hs Hmd Htasks)
    as (sec1 & n & Hrun & Hkeys).
  erewrite bind_ok; [|exact Hrun].
  edestruct (mark_complete_dict
               (set_memory_state (VDict (<[name := VDict sec1]> d)) (Nat.iter n tick w)))
    as (sec2 & Hmark & Hst & _); [reflexivity|apply lookup_insert_eq|].
  rewrite Hmark, insert_insert_eq. exists sec2, n. split; [done|].
  intros H. by apply Hst, Hkeys.
Qed.

Lemma memory_state_ticks (n : nat) (w : world) :
  memory_state (Nat.iter n tick w) = memory_state w.
Proof. induction n as [|n IH]; [done|]. simpl. exact IH. Qed.

Lemma state_file_ticks (n : nat) (w : world) :
  state_file (Nat.iter n tick w) = state_file w.
Proof. induction n as [|n IH]; [done|]. simpl. exact IH. Qed.

Lemma seq_bind_ok {A B C : Type} (m : M A) (k : M B) (f : B → M C)
    (w w' : world) (b : B) :
  (m ;; k) w = (Ok b, w') → (m ;; (k ≫= f)) w = f b w'.
Proof.
  unfold mbind, M_bind. destruct (m w) as [[a|e] w1]; [|done].
  by intros ->.
Qed.

(** C3, amended.  When the document has a [metadata] mapping, the section
    is a mapping with a [status], the [metadata] argument is [None] or a
    mapping and, for [tasks], the inner fields it asks to write have the
    right shape, [update_section] returns [True], leaves the status of the
    section ["Complete"] whatever it was, and persists the document. *)
Theorem update_section_marks_complete (w : world) (d m sec : gmap string value)
    (name : string) (content metadata : value) :
  memory_state w = VDict d →
  d !! "metadata" = Some (VDict m) →
  d !! name = Some (VDict sec) → is_Some (sec !! "status") →
  mapping_or_none metadata → (name = "tasks" → tasks_shape_ok sec metadata) →
  ∃ w' d' sec',
    update_section name content metadata w = (Ok true, w')
    ∧ memory_state w' = VDict d'
    ∧ d' !! name = Some (VDict sec')
    ∧ sec' !! "status" = Some (VStr "Complete")
    ∧ state_file w' = Some (JsonText (VDict d')).
Proof.
  intros Hw Hm Hs Hst Hmd Htasks.
  destruct (update_steps_ok w d sec name content metadata Hw Hs Hmd Htasks)
    as (sec1 & n & Hrun & Hdone).
  specialize (Hdone Hst).
  unfold update_section.
  erewrite bind_ok; [|reflexivity].
  rewrite Hw. erewrite bind_ok; [|by rewrite (contains_key _ _ _ Hs)].
  simpl. erewrite seq_bind_ok; [|exact Hrun].
  set (w2 := set_memory_state _ _).
  destruct (decide (name = "metadata")) as [->|Hne].
  - erewrite bind_ok;
      [|apply (save_memory_state_ok w2 (<["metadata" := VDict sec1]> d) sec1);
        [reflexivity|apply lookup_insert_eq]].
    eexists _, _, _. split; [reflexivity|]. simpl. split; [reflexivity|].
    split; [apply lookup_insert_eq|]. split; [|done].
    by rewrite lookup_insert_ne.
  - erewrite bind_ok;
      [|apply (save_memory_state_ok w2 (<[name := VDict sec1]> d) m);
        [reflexivity|by rewrite lookup_insert_ne]].
    eexists _, _, _. split; [reflexivity|]. simpl. split; [reflexivity|].
    split; [|done]. rewrite lookup_insert_ne; [|done]. apply lookup_insert_eq.
Qed.

Lemma truthy_dict_lookup (md : gmap string value) (k : string) (x : value) :
  md !! k = Some x → truthy (VDict md) = true.
Proof.
  intros H. simpl. rewrite bool_decide_eq_false_2; [done|].
  intros ->. by rewrite lookup_empty in H.
Qed.

(** X2 (the part of C6 that holds).  For a section other than
    [projectInfo], [technologies] and [tasks] that is not a mapping, and a
    document with a [metadata] mapping, [update_section] writes no content,
    sets no status, saves and returns [True]. *)
Lemma update_section_generic_not_mapping (w : world) (d m : gmap string value)
    (name : string) (v content metadata : value) :
  memory_state w = VDict d → d !! "metadata" = Some (VDict m) →
  d !! name = Some v → is_dict v = false →
  name ≠ "projectInfo" → name ≠ "technologies" → name ≠ "tasks" →
  update_section name content metadata w = (Ok true, saved d m w).
Proof.
  intros Hw Hm Hs Hv H1 H2 H3. unfold update_section, write_section.
  apply String.eqb_neq in H1, H2, H3. rewrite H1, H2, H3.
  run. rewrite Hw. simpl. rewrite Hs. rewrite bool_decide_eq_true_2; [|by eexists].
  simpl. rewrite Hw. simpl. rewrite Hs, Hv.
  rewrite (mark_complete_not_dict w d name v Hw Hs Hv).
  by rewrite (save_memory_state_ok w d m Hw Hm).
Qed.

(** C6, the cases the code misses.  With [projectInfo] or [technologies]
    not a mapping, [update_section] raises [TypeError] at the content write;
    with [tasks] lacking [current] (or [history]) and a metadata that asks
    to write it, it raises [KeyError].  Nothing is saved.  The specification
    asks for a no-op on the sub-step and a return of [True]. *)
Theorem update_section_malformed_raises (w : world) (d : gmap string value)
    (content metadata : value) :
  memory_state w = VDict d →
  (∀ name v, name = "projectInfo" ∨ name = "technologies" →
     d !! name = Some v → is_dict v = false →
     update_section name content metadata w = (Raise TypeError, w))
  ∧ (∀ t md x, d !! "tasks" = Some (VDict t) → t !! "current" = None →
       metadata = VDict md → md !! "activeContext" = Some x →
       update_section "tasks" content metadata w = (Raise (KeyError "current"), w))
  ∧ (∀ t md x, d !! "tasks" = Some (VDict t) → t !! "history" = None →
       metadata = VDict md → md !! "activeContext" = None → md !! "progress" = Some x →
       update_section "tasks" content metadata w = (Raise (KeyError "history"), tick w)).
Proof.
  intros Hw. split; [|split].
  - intros name v Hname Hs Hv. unfold update_section.
    erewrite bind_ok; [|reflexivity]. rewrite Hw.
    erewrite bind_ok; [|by rewrite (contains_key _ _ _ Hs)].
    simpl. apply bind_raise. unfold write_section.
    destruct Hname as [-> | ->]; simpl.
    + apply bind_raise. by eapply set_section_item_not_dict.
    + by eapply set_section_item_not_dict.
  - intros t md x Hs Hc -> Hx. unfold update_section.
    erewrite bind_ok; [|reflexivity]. rewrite Hw.
    erewrite bind_ok; [|by rewrite (contains_key _ _ _ Hs)].
    simpl. apply bind_raise. unfold write_section, and_contains. simpl String.eqb.
    cbv iota. rewrite (truthy_dict_lookup _ _ _ Hx).
    unfold set_current_item. run. rewrite Hx. simpl.
    rewrite Hw. simpl. rewrite Hs. simpl. by rewrite Hc.
  - intros t md x Hs Hh -> Ha Hx. unfold update_section.
    erewrite bind_ok; [|reflexivity]. rewrite Hw.
    erewrite bind_ok; [|by rewrite (contains_key _ _ _ Hs)].
    simpl. apply bind_raise. unfold write_section, and_contains. simpl String.eqb.
    cbv iota. rewrite (truthy_dict_lookup _ _ _ Hx).
    unfold append_history, now. run. rewrite Ha, Hx. simpl.
    rewrite Hw. simpl. rewrite Hs. simpl. by rewrite Hh.
Qed.

(** The steps of [log_change] before the save. *)
Lemma log_change_steps (w : world) (d : gmap string value) (description details : value) :
  memory_state w = VDict d →
  log_change description details w =
    save_memory_state
      (set_memory_state
         (VDict (<["changeHistory" :=
                     VList (prior_history d ++
                            [change_entry (VStr (clock w (ticks w))) description details])]> d))
         (tick w)).
Proof.
  intros Hw. unfold log_change, now, prior_history. run. rewrite Hw. simpl.
  destruct (d !! "changeHistory") as [h|] eqn:Hh.
  - rewrite bool_decide_eq_true_2; [|by eexists]. simpl.
    destruct h; simpl; rewrite ?lookup_insert_eq; simpl; rewrite ?insert_insert_eq;
      try reflexivity.
    rewrite Hw. simpl. rewrite Hh. simpl. reflexivity.
  - rewrite bool_decide_eq_false_2; [|by intros [? ?]]. simpl.
    rewrite lookup_insert_eq. simpl. by rewrite insert_insert_eq.
Qed.

(** C7, amended.  When the document has a [metadata] mapping, [log_change]
    returns normally, [changeHistory] becomes the prior entries (those of
    the list it held; none if it was absent or not a list) followed by the
    one new entry [{timestamp, description, details or {}}], no section
    other than [changeHistory] and [metadata] changes, and the document is
    persisted. *)
Theorem log_change_appends_and_persists (w : world) (d m : gmap string value)
    (description details : value) :
  memory_state w = VDict d → d !! "metadata" = Some (VDict m) →
  ∃ w' d',
    log_change description details w = (Ok tt, w')
    ∧ memory_state w' = VDict d'
    ∧ d' !! "changeHistory" =
        Some (VList (prior_history d ++
                     [change_entry (VStr (clock w (ticks w))) description details]))
    ∧ (∀ k, k ≠ "changeHistory" → k ≠ "metadata" → d' !! k = d !! k)
    ∧ state_file w' = Some (JsonText (VDict d')).
Proof.
  intros Hw Hm. rewrite (log_change_steps w d description details Hw).
  erewrite save_memory_state_ok; [|reflexivity|by rewrite lookup_insert_ne].
  eexists _, _. split; [reflexivity|]. simpl. split; [reflexivity|].
  split; [|split; [|done]].
  - rewrite lookup_insert_ne; [|done]. apply lookup_insert_eq.
  - intros k H1 H2. by rewrite !lookup_insert_ne.
Qed.

(** ** sections.py: the dependency resolver *)

Lemma str_eq_true (v : value) (s : string) : str_eq v s = true ↔ v = VStr s.
Proof.
  destruct v; simpl; try (split; [done|intros [=]]).
  rewrite String.eqb_eq. split; [by intros ->|by intros [= ->]].
Qed.

Lemma str_eq_false (v : value) (s : string) : str_eq v s = false ↔ v ≠ VStr s.
Proof.
  rewrite <- str_eq_true. destruct (str_eq v s); split; (done || congruence).
Qed.

Lemma not_dict_passes (d : gmap string value) (dep : string) (v : value) :
  d !! dep = Some v → is_dict v = false → prerequisite_passes d dep.
Proof. intros Hv Hd. exists v. split; [done|]. by intros sec st ->. Qed.

Lemma dependencies_loop_spec (d : gmap string value) (deps : list string) :
  ∃ b, dependencies_loop (VDict d) deps = Ok b
     ∧ (b = true ↔ ∀ dep, dep ∈ deps → prerequisite_passes d dep).
Proof.
  induction deps as [|dep deps (b & IH & Hb)].
  { exists true. split; [done|]. split; [|done]. intros _ dep H. by apply elem_of_nil in H. }
  simpl. destruct (d !! dep) as [v|] eqn:Hv.
  2:{ rewrite bool_decide_eq_false_2; [|by intros [? ?]]. simpl.
      exists false. split; [done|]. split; [done|]. intros H.
      destruct (H dep) as (? & ? & _); [apply elem_of_cons; by left|congruence]. }
  rewrite bool_decide_eq_true_2; [|by eexists]. simpl.
  assert (Hskip : prerequisite_passes d dep →
                  (b = true ↔ ∀ dep', dep' ∈ dep :: deps → prerequisite_passes d dep')).
  { intros Hp. rewrite Hb. split.
    - intros H dep' [->|Hin]%elem_of_cons; [done|by apply H].
    - intros H dep' Hin. apply H, elem_of_cons. by right. }
  destruct v as [| | | |l|sec]; simpl;
    try (exists b; split; [exact IH|]; apply Hskip; by eapply not_dict_passes).
  destruct (sec !! "status") as [st|] eqn:Hst.
  2:{ rewrite bool_decide_eq_false_2; [|by intros [? ?]]. simpl.
      exists b. split; [done|]. apply Hskip. eexists. split; [done|].
      intros ? ? [= <-]. congruence. }
  rewrite bool_decide_eq_true_2; [|by eexists]. simpl.
  destruct (str_eq st "Complete") eqn:Hc; simpl.
  - apply str_eq_true in Hc. exists b. split; [done|]. apply Hskip.
    eexists. split; [done|]. intros ? ? [= <-]. congruence.
  - apply str_eq_false in Hc. exists false. split; [done|]. split; [done|].
    intros H. destruct (H dep) as (v & Hv' & Hp); [apply elem_of_cons; by left|].
    rewrite Hv in Hv'. injection Hv' as <-. by specialize (Hp sec st eq_refl Hst).
Qed.

Lemma check_dependencies_complete_spec (d : gmap string value) (name : string) :
  ∃ b, check_dependencies_complete (VDict d) name = Ok b
     ∧ (b = true ↔ ∃ deps, assoc name section_dependencies = Some deps
                         ∧ ∀ dep, dep ∈ deps → prerequisite_passes d dep).
Proof.
  unfold check_dependencies_complete.
  destruct (assoc name section_dependencies) as [deps|].
  - destruct (dependencies_loop_spec d deps) as (b & -> & Hb).
    exists b. split; [done|]. rewrite Hb. split.
    + intros H. by exists deps.
    + by intros (? & [= <-] & H).
  - exists false. split; [done|]. split; [done|]. by intros (? & ? & _).
Qed.

Lemma ready_loop_spec (d : gmap string value) (names : list string) :
  ∀ acc, ∃ ready,
    ready_loop (VDict d) names acc = Ok ready
    ∧ ∀ name, name ∈ ready ↔ name ∈ acc ∨ (name ∈ names ∧ listed d name).
Proof.
  induction names as [|n names IH]; intros acc.
  { exists acc. split; [done|]. intros name. split; [by left|].
    intros [H|[H _]]; [done|by apply elem_of_nil in H]. }
  assert (Hskip : ¬ listed d n → ∃ ready,
            ready_loop (VDict d) names acc = Ok ready
            ∧ ∀ name, name ∈ ready ↔ name ∈ acc ∨ (name ∈ n :: names ∧ listed d name)).
  { intros Hn. destruct (IH acc) as (ready & Hr & Hin). exists ready. split; [done|].
    intros name. rewrite Hin, elem_of_cons. split; [tauto|].
    intros [H|[[->|H] Hl]]; tauto. }
  simpl. destruct (d !! n) as [v|] eqn:Hv.
  2:{ rewrite bool_decide_eq_false_2; [|by intros [? ?]]. simpl.
      apply Hskip. intros [(? & ? & ? & _) _]. congruence. }
  rewrite bool_decide_eq_true_2; [|by eexists]. simpl.
  destruct v as [| | | |l|sec]; simpl;
    try (apply Hskip; intros [(? & ? & ? & _) _]; congruence).
  destruct (sec !! "status") as [st|] eqn:Hst.
  2:{ rewrite bool_decide_eq_false_2; [|by intros [? ?]]. simpl.
      apply Hskip. intros [(? & ? & ? & ? & _) _]. congruence. }
  rewrite bool_decide_eq_true_2; [|by eexists]. simpl.
  destruct (str_eq st "Complete") eqn:Hc; simpl.
  { apply str_eq_true in Hc. apply Hskip.
    intros [(? & ? & ? & ? & ?) _]. congruence. }
  apply str_eq_false in Hc.
  destruct (check_dependencies_complete_spec d n) as (b & -> & Hb). simpl.
  destruct b.
  - destruct (IH (acc ++ [n])%list) as (ready & Hr & Hin). exists ready. split; [done|].
    intros name. rewrite Hin, elem_of_app, !elem_of_cons, elem_of_nil.
    assert (listed d n) as Hl.
    { split; [by exists sec, st|]. by apply Hb. }
    split; [|intros [H|[[->|H] Hl']]; tauto].
    intros [[H|[->|[]]]|[H Hl']]; tauto.
  - apply Hskip. intros [_ H]. apply Hb in H. done.
Qed.

(** C2, amended.  On every document, [get_ready_sections] returns, and a
    name is listed exactly when its section is a mapping whose [status] is
    not ["Complete"] and every prerequisite of the table is present in the
    document and, if it is a mapping with a [status], has status
    ["Complete"]; a prerequisite that is not a mapping or has no [status]
    is skipped. *)
Theorem ready_sections_prerequisites (d : gmap string value) :
  ∃ ready,
    get_ready_sections (VDict d) = Ok ready
    ∧ ∀ name, name ∈ ready ↔
        incomplete_section d name
        ∧ ∃ deps, assoc name section_dependencies = Some deps
                ∧ ∀ dep, dep ∈ deps → prerequisite_passes d dep.
Proof.
  unfold get_ready_sections.
  destruct (ready_loop_spec d (section_dependencies.*1) []) as (ready & Hr & Hin).
  exists ready. split; [done|]. intros name. rewrite Hin. unfold listed. split.
  - intros [H|[_ H]]; [by apply elem_of_nil in H|done].
  - intros [Hi (deps & Hd & Hp)]. right. split; [|by eauto].
    clear -Hd. unfold section_dependencies in *. simpl in *.
    repeat match type of Hd with
           | (if String.eqb ?a ?b then _ else _) = _ =>
               destruct (String.eqb_spec a b) as [->|_];
               [set_solver|]
           end.
    done.
Qed.

(** ** exporters.py *)

Lemma universal_newlines_no_cr (s : string) :
  has_cr s = false → universal_newlines s = s.
Proof.
  induction s as [|c s IH]; simpl; [done|].
  destruct (Ascii.eqb c CR); simpl; [done|]. intros H. by rewrite IH.
Qed.

#[local] Instance same_but_files_refl (f : string) : Reflexive (same_but_files f).
Proof. by intros w. Qed.

#[local] Instance same_but_files_trans (f : string) : Transitive (same_but_files f).
Proof.
  intros w1 w2 w3 (Hs & Hp & Hf) (Hs' & Hp' & Hf'). unfold same_but_files.
  rewrite Hs', Hp', <- Hf, <- Hp, Hf'. done.
Qed.

Section Frame.
Context (R : relation world) `{!Reflexive R, !Transitive R}.

Lemma frame_ret {A : Type} (a : A) : frame R (mret a).
Proof. intros w. simpl. reflexivity. Qed.

Lemma frame_raise {A : Type} (e : exn) : frame R (raise (A := A) e).
Proof. intros w. simpl. reflexivity. Qed.

Lemma frame_lift {A : Type} (o : outcome A) : frame R (lift o).
Proof. intros w. simpl. reflexivity. Qed.

Lemma frame_get_world : frame R get_world.
Proof. intros w. simpl. reflexivity. Qed.

Lemma frame_bind {A B : Type} (m : M A) (f : A → M B) :
  frame R m → (∀ a, frame R (f a)) → frame R (m ≫= f).
Proof.
  intros Hm Hf w. specialize (Hm w). unfold mbind, M_bind.
  destruct (m w) as [[a|e] w1]; simpl in *; [|done].
  etransitivity; [exact Hm|apply Hf].
Qed.

Lemma frame_fmap {A B : Type} (g : A → B) (m : M A) :
  frame R m → frame R (g <$> m).
Proof.
  intros Hm w. specialize (Hm w). unfold fmap, M_fmap.
  by destruct (m w) as [[a|e] w1].
Qed.

Lemma frame_for_each {A : Type} (l : list A) (body : A → M unit) :
  (∀ x, x ∈ l → frame R (body x)) → frame R (for_each l body).
Proof.
  induction l as [|x l IH]; intros H; simpl; [apply frame_ret|].
  apply frame_bind; [apply H, elem_of_cons; by left|].
  intros _. apply IH. intros y Hy. apply H, elem_of_cons. by right.
Qed.
End Frame.

Lemma frame_open_write (f dir f' : string) :
  f' ≠ f → frame (same_but_files f) (open_write (dir, f')).
Proof.
  intros Hne w. unfold open_write, same_but_files. simpl.
  split; [done|]. split; [done|]. rewrite lookup_insert_ne; [done|congruence].
Qed.

Lemma frame_write (f dir f' : string) (x : value) :
  f' ≠ f → frame (same_but_files f) (write (dir, f') x).
Proof.
  intros Hne w. unfold write, same_but_files.
  destruct x; simpl; try done.
  split; [done|]. split; [done|]. rewrite lookup_insert_ne; [done|congruence].
Qed.

Ltac frame_step :=
  first
    [ apply frame_ret; apply _ | apply frame_raise; apply _
    | apply frame_lift; apply _ | apply frame_get_world; apply _
    | apply frame_open_write; done | apply frame_write; done
    | apply frame_fmap
    | apply frame_bind; [apply _| |intros ?]
    | match goal with
      | |- frame _ (if ?b then _ else _) => destruct b
      | |- frame _ (match ?x with _ => _ end) => destruct x
      end ].

Lemma frame_export_tasks (str_of : value → string) (f : string) :
  f ≠ "activeContext.md" → f ≠ "progress.md" →
  frame (same_but_files f) (export_tasks str_of).
Proof.
  intros H1 H2. unfold export_tasks. repeat frame_step.
Qed.

Lemma frame_export_regular (f name filename : string) :
  filename ≠ f → frame (same_but_files f) (export_regular name filename).
Proof.
  intros H. unfold export_regular. repeat frame_step.
Qed.

Lemma frame_export_entry (str_of : value → string) (f : string) (entry : string * string) :
  f ≠ "activeContext.md" → f ≠ "progress.md" → entry.2 ≠ f →
  frame (same_but_files f) (export_entry str_of entry).
Proof.
  intros H1 H2 H3. destruct entry as [name filename]. unfold export_entry, is_tasks_dict.
  repeat (first [frame_step | by apply frame_export_tasks
                 | by apply frame_export_regular]).
Qed.

Lemma bind_assoc {A B C : Type} (m : M A) (f : A → M B) (g : B → M C) (w : world) :
  ((m ≫= f) ≫= g) w = (m ≫= λ a, f a ≫= g) w.
Proof. unfold mbind, M_bind. by destruct (m w) as [[a|e] w1]. Qed.

Lemma for_each_cons {A : Type} (x : A) (l : list A) (body : A → M unit) :
  for_each (x :: l) body = (body x ;; for_each l body).
Proof. reflexivity. Qed.

Lemma export_regular_content (w : world) (d sec : gmap string value)
    (name filename s : string) :
  memory_state w = VDict d → d !! name = Some (VDict sec) →
  sec !! "content" = Some (VStr s) →
  export_regular name filename w =
    (Ok (memory_path w, filename),
     set_files (<[(memory_path w, filename) := s]> (files w)) w).
Proof.
  intros Hw Hs Hc. unfold export_regular, open_write, write. run.
  rewrite Hw. simpl. rewrite Hs. simpl. rewrite Hc. simpl.
  by rewrite lookup_insert_eq, insert_insert_eq.
Qed.

(** A [content] that is not a string stops the export after the file was
    truncated. *)
Lemma export_regular_not_string (w : world) (d sec : gmap string value)
    (name filename : string) (c : value) :
  memory_state w = VDict d → d !! name = Some (VDict sec) →
  sec !! "content" = Some c → (∀ s, c ≠ VStr s) →
  export_regular name filename w =
    (Raise TypeError, set_files (<[(memory_path w, filename) := ""]> (files w)) w).
Proof.
  intros Hw Hs Hc Hn. unfold export_regular, open_write, write. run.
  rewrite Hw. simpl. rewrite Hs. simpl. rewrite Hc. simpl.
  destruct c; try done. by destruct (Hn s).
Qed.

Lemma export_markdown_projectInfo (str_of : value → string) (w : world)
    (d sec : gmap string value) (s : string) :
  memory_state w = VDict d → d !! "projectInfo" = Some (VDict sec) →
  sec !! "content" = Some (VStr s) →
  export_markdown str_of (Some "projectInfo") w =
    (Ok (ExportedFile (memory_path w, "projectbrief.md")),
     set_files (<[(memory_path w, "projectbrief.md") := s]> (files w)) w).
Proof.
  intros Hw Hs Hc. unfold export_markdown, is_tasks_dict. run.
  rewrite Hw. simpl. rewrite Hs. simpl.
  by rewrite (export_regular_content w d sec _ _ s Hw Hs Hc).
Qed.

Lemma export_entry_projectInfo (str_of : value → string) (w : world)
    (d sec : gmap string value) (s : string) :
  memory_state w = VDict d → d !! "projectInfo" = Some (VDict sec) →
  sec !! "content" = Some (VStr s) →
  export_entry str_of ("projectInfo", "projectbrief.md") w =
    (Ok tt, set_files (<[(memory_path w, "projectbrief.md") := s]> (files w)) w).
Proof.
  intros Hw Hs Hc. unfold export_entry, is_tasks_dict. run.
  rewrite Hw. simpl. rewrite Hs. simpl.
  by rewrite (export_regular_content w d sec _ _ s Hw Hs Hc).
Qed.

(** After either form of the export, [projectbrief.md] holds the content
    and the manager is unchanged; the export of every section may still
    raise on a later section. *)
Lemma export_markdown_writes_brief (str_of : value → string) (w : world)
    (d sec : gmap string value) (s : string) (selector : option string) :
  memory_state w = VDict d → d !! "projectInfo" = Some (VDict sec) →
  sec !! "content" = Some (VStr s) →
  selector = None ∨ selector = Some "projectInfo" →
  let w1 := (export_markdown str_of selector w).2 in
  memory_state w1 = VDict d
  ∧ memory_path w1 = memory_path w
  ∧ files w1 !! (memory_path w, "projectbrief.md") = Some s.
Proof.
  intros Hw Hs Hc [-> | ->].
  - unfold export_markdown, export_mapping. rewrite for_each_cons, bind_assoc.
    erewrite bind_ok; [|by eapply export_entry_projectInfo].
    set (w0 := set_files _ w).
    assert (Hframe : frame (same_but_files "projectbrief.md")
              (for_each [("productContext", "productContext.md");
                         ("systemPatterns", "systemPatterns.md");
                         ("technologies", "techContext.md");
                         ("tasks", "activeContext.md")] (export_entry str_of) ;;
               (w' ← get_world; mret (ExportedDir (memory_path w'))))).
    { apply frame_bind; [apply _| |intros ?; repeat frame_step].
      apply frame_for_each; [apply _..|].
      intros entry Hin. apply frame_export_entry; [done|done|].
      repeat (apply elem_of_cons in Hin as [->|Hin]; [done|]).
      by apply elem_of_nil in Hin. }
    destruct (Hframe w0) as (H1 & H2 & H3). cbv zeta.
    rewrite H1, H2. split; [done|]. split; [done|].
    etransitivity; [exact H3|]. subst w0. apply lookup_insert_eq.
  - cbv zeta. rewrite (export_markdown_projectInfo str_of w d sec s Hw Hs Hc). simpl.
    split; [done|]. split; [done|]. apply lookup_insert_eq.
Qed.

Lemma import_markdown_derived (name f : string) (w : world) :
  derive_file name import_mapping = Some f →
  import_markdown name None w = import_markdown name (Some (memory_path w, f)) w.
Proof. intros H. unfold import_markdown. by rewrite H. Qed.

(** A readable file of a regular section that is a mapping: the text read
    becomes the [content], the [status] is forced, and the state is saved. *)
Lemma import_markdown_regular (w : world) (d sec : gmap string value)
    (name section s : string) (p : path) :
  memory_state w = VDict d → files w !! p = Some s →
  p.2 ≠ "activeContext.md" → p.2 ≠ "progress.md" →
  assoc p.2 import_mapping = Some section →
  d !! section = Some (VDict sec) →
  import_markdown name (Some p) w =
    (save_memory_state ;; mret true)
      (set_memory_state
         (VDict (<[section := VDict (<["status" := VStr "Complete"]>
                                       (<["content" := VStr (universal_newlines s)]> sec))]> d))
         w).
Proof.
  intros Hw Hf H1 H2 Hmap Hs.
  unfold import_markdown, exists_file, read_text, try_except. cbv zeta.
  rewrite Hmap. apply String.eqb_neq in H1, H2. rewrite H1, H2.
  run. repeat (rewrite ?Hf, ?Hw, ?Hs; simpl).
  erewrite set_section_item_dict; [|done..].
  erewrite set_section_item_dict; [|reflexivity|apply lookup_insert_eq].
  by rewrite insert_insert_eq.
Qed.

(** A readable [activeContext.md] or [progress.md], with [tasks.current] a
    mapping: the text read goes to [tasks.current] and the state is saved. *)
Lemma import_markdown_current (w : world) (d t c : gmap string value)
    (name s : string) (p : path) (key : string) :
  memory_state w = VDict d → files w !! p = Some s →
  (p.2 = "activeContext.md" ∧ key = "activeContext")
    ∨ (p.2 = "progress.md" ∧ key = "progress") →
  d !! "tasks" = Some (VDict t) → t !! "current" = Some (VDict c) →
  import_markdown name (Some p) w =
    (save_memory_state ;; mret true)
      (set_memory_state
         (VDict (<["tasks" := VDict (<["current" :=
                     VDict (<[key := VStr (universal_newlines s)]> c)]> t)]> d))
         w).
Proof.
  intros Hw Hf Hp Ht Hc.
  unfold import_markdown, exists_file, read_text, try_except. cbv zeta.
  destruct Hp as [[-> ->]|[-> ->]]; simpl String.eqb; cbv iota;
    unfold import_current, set_current_item; run;
    repeat (rewrite ?Hf, ?Hw, ?Ht, ?Hc; simpl); done.
Qed.

Lemma import_markdown_missing_file (w : world) (name : string) (p : path) :
  files w !! p = None → import_markdown name (Some p) w = (Ok false, w).
Proof.
  intros Hf. unfold import_markdown, exists_file. run. by rewrite Hf.
Qed.

(** Saving touches no section but [metadata], whether it succeeds or not. *)
Lemma save_memory_state_keeps_sections (w : world) (d : gmap string value) :
  memory_state w = VDict d →
  ∃ d', memory_state (save_memory_state w).2 = VDict d'
      ∧ ∀ k, k ≠ "metadata" → d' !! k = d !! k.
Proof.
  intros Hw. unfold save_memory_state, now, set_section_item. run.
  rewrite Hw. simpl. destruct (d !! "metadata") as [v|] eqn:Hm; simpl.
  - destruct v; simpl; try (exists d; by split).
    destruct (state_file w); simpl; eexists; (split; [reflexivity|]);
      intros k Hk; by rewrite lookup_insert_ne.
  - exists d. by split.
Qed.

(** C8, amended.  With [projectInfo] a mapping whose [content] is a
    string, the export (of that section or of every section) writes the
    string to [projectbrief.md], and the import that follows sets
    [content] to the text read back: the string with each carriage return
    (alone or before a line feed) turned into a line feed, hence the very
    string when it holds no carriage return.  The import returns [True]
    when the document has a [metadata] mapping. *)
Theorem export_import_restores_content (str_of : value → string) (w : world)
    (d sec : gmap string value) (s : string) (selector : option string) :
  memory_state w = VDict d →
  d !! "projectInfo" = Some (VDict sec) →
  sec !! "content" = Some (VStr s) →
  selector = None ∨ selector = Some "projectInfo" →
  let w1 := (export_markdown str_of selector w).2 in
  let w2 := (import_markdown "projectInfo" None w1).2 in
  files w1 !! (memory_path w, "projectbrief.md") = Some s
  ∧ content_of w2 "projectInfo" = Some (VStr (universal_newlines s))
  ∧ (has_cr s = false → content_of w2 "projectInfo" = Some (VStr s))
  ∧ (∀ m, d !! "metadata" = Some (VDict m) →
       (import_markdown "projectInfo" None w1).1 = Ok true).
Proof.
  intros Hw Hs Hc Hsel w1 w2.
  destruct (export_markdown_writes_brief str_of w d sec s selector Hw Hs Hc Hsel)
    as (Hw1 & Hp1 & Hf1).
  fold w1 in Hw1, Hp1, Hf1.
  assert (Himp : import_markdown "projectInfo" None w1 =
            (save_memory_state ;; mret true)
              (set_memory_state
                 (VDict (<["projectInfo" :=
                     VDict (<["status" := VStr "Complete"]>
                              (<["content" := VStr (universal_newlines s)]> sec))]> d))
                 w1)).
  { rewrite (import_markdown_derived "projectInfo" "projectbrief.md" w1 eq_refl).
    eapply import_markdown_regular; try done. by rewrite Hp1. }
  set (w1' := set_memory_state _ w1) in Himp.
  assert (Hcontent : content_of w2 "projectInfo" = Some (VStr (universal_newlines s))).
  { subst w2. rewrite Himp.
    destruct (save_memory_state_keeps_sections w1' _ eq_refl) as (d' & Hd' & Hk).
    unfold content_of, mbind, M_bind.
    destruct (save_memory_state w1') as [[[]|e] w3]; simpl in *;
      rewrite Hd', Hk, lookup_insert_eq; try done;
      by rewrite lookup_insert_ne, lookup_insert_eq. }
  split; [done|]. split; [done|]. split.
  - intros Hcr. by rewrite Hcontent, universal_newlines_no_cr.
  - intros m Hm. rewrite Himp.
    unfold mbind, M_bind.
    by erewrite save_memory_state_ok; [|reflexivity|by rewrite lookup_insert_ne].
Qed.

(** C10, amended.  On a document without [metadata], [save_memory_state]
    raises [KeyError]; so does [log_change], always; so does
    [update_section] when the name is a key and its section steps
    complete, and [import_markdown] when the file is read and its target
    is a mapping; the state file is then left as it was.
    [update_section] on an unknown name and [import_markdown] on a missing
    file return [False] and raise nothing. *)
Theorem persist_requires_metadata (w : world) (d : gmap string value) :
  memory_state w = VDict d → d !! "metadata" = None →
  save_memory_state w = (Raise (KeyError "metadata"), tick w)
  ∧ (∀ description details, ∃ w',
       log_change description details w = (Raise (KeyError "metadata"), w')
       ∧ state_file w' = state_file w)
  ∧ (∀ name sec content metadata,
       d !! name = Some (VDict sec) → mapping_or_none metadata →
       (name = "tasks" → tasks_shape_ok sec metadata) →
       ∃ w', update_section name content metadata w = (Raise (KeyError "metadata"), w')
           ∧ state_file w' = state_file w)
  ∧ (∀ name v content metadata,
       d !! name = Some v → is_dict v = false →
       name ≠ "projectInfo" → name ≠ "technologies" → name ≠ "tasks" →
       update_section name content metadata w = (Raise (KeyError "metadata"), tick w))
  ∧ (∀ name content metadata,
       d !! name = None → update_section name content metadata w = (Ok false, w))
  ∧ (∀ name p s section sec,
       files w !! p = Some s → p.2 ≠ "activeContext.md" → p.2 ≠ "progress.md" →
       assoc p.2 import_mapping = Some section → d !! section = Some (VDict sec) →
       ∃ w', import_markdown name (Some p) w = (Raise (KeyError "metadata"), w')
           ∧ state_file w' = state_file w)
  ∧ (∀ name p s t c,
       files w !! p = Some s → p.2 = "activeContext.md" ∨ p.2 = "progress.md" →
       d !! "tasks" = Some (VDict t) → t !! "current" = Some (VDict c) →
       ∃ w', import_markdown name (Some p) w = (Raise (KeyError "metadata"), w')
           ∧ state_file w' = state_file w)
  ∧ (∀ name p, files w !! p = None → import_markdown name (Some p) w = (Ok false, w)).
Proof.
  intros Hw Hm. repeat split.
  - by apply (save_memory_state_no_metadata w d).
  - intros description details. rewrite (log_change_steps w d _ _ Hw).
    erewrite save_memory_state_no_metadata; [|reflexivity|by rewrite lookup_insert_ne].
    by eexists.
  - intros name sec content metadata Hs Hmd Htasks.
    destruct (update_steps_ok w d sec name content metadata Hw Hs Hmd Htasks)
      as (sec1 & n & Hrun & _).
    unfold update_section. erewrite bind_ok; [|reflexivity]. rewrite Hw.
    erewrite bind_ok; [|by rewrite (contains_key _ _ _ Hs)].
    simpl. erewrite seq_bind_ok; [|exact Hrun].
    erewrite bind_raise;
      [|apply save_memory_state_no_metadata with (d := <[name := VDict sec1]> d);
        [reflexivity|rewrite lookup_insert_ne; [done|congruence]]].
    eexists. split; [reflexivity|]. simpl. apply state_file_ticks.
  - intros name v content metadata Hs Hv H1 H2 H3. unfold update_section, write_section.
    apply String.eqb_neq in H1, H2, H3. rewrite H1, H2, H3.
    run. rewrite Hw. simpl. rewrite Hs. rewrite bool_decide_eq_true_2; [|by eexists].
    simpl. rewrite Hw. simpl. rewrite Hs, Hv.
    rewrite (mark_complete_not_dict w d name v Hw Hs Hv).
    by rewrite (save_memory_state_no_metadata w d Hw Hm).
  - intros name content metadata Hn. unfold update_section. run.
    rewrite Hw. by rewrite (contains_no_key _ _ Hn).
  - intros name p s section sec Hf H1 H2 Hmap Hs.
    rewrite (import_markdown_regular w d sec name section s p Hw Hf H1 H2 Hmap Hs).
    erewrite bind_raise;
      [|eapply save_memory_state_no_metadata;
        [reflexivity|rewrite lookup_insert_ne; [done|congruence]]].
    by eexists.
  - intros name p s t c Hf Hp Ht Hc.
    assert (∃ key, (p.2 = "activeContext.md" ∧ key = "activeContext")
                   ∨ (p.2 = "progress.md" ∧ key = "progress")) as [key Hkey].
    { destruct Hp; [exists "activeContext"; by left|exists "progress"; by right]. }
    rewrite (import_markdown_current w d t c name s p key Hw Hf Hkey Ht Hc).
    erewrite bind_raise;
      [|eapply save_memory_state_no_metadata;
        [reflexivity|by rewrite lookup_insert_ne]].
    by eexists.
  - intros name p. apply import_markdown_missing_file.
Qed.

(** ** Counterexamples *)

Lemma ready_prerequisites_counterexample :
  get_ready_sections (VDict doc_no_status) = Ok ["productContext"]
  ∧ ¬ ready_prerequisites_complete doc_no_status.
Proof.
  split; [reflexivity|]. intros H.
  destruct (H ["productContext"] "productContext" ["projectInfo"] "projectInfo")
    as (sec & Hsec & Hst); [reflexivity|set_solver|reflexivity|set_solver|].
  assert (Hf : match doc_no_status !! "projectInfo" with
               | Some (VDict sec) => sec !! "status"
               | _ => None
               end = None) by reflexivity.
  rewrite Hsec, Hst in Hf. discriminate Hf.
Qed.

Lemma update_completes_counterexample :
  (update_section "projectInfo" (VStr "# Brief") VNull (loaded (VDict doc_no_metadata))).1
    = Raise (KeyError "metadata")
  ∧ ¬ update_always_completes (loaded (VDict doc_no_metadata)) "projectInfo"
        (VStr "# Brief") VNull.
Proof.
  assert (Hr : (update_section "projectInfo" (VStr "# Brief") VNull
                  (loaded (VDict doc_no_metadata))).1 = Raise (KeyError "metadata"))
    by reflexivity.
  split; [exact Hr|]. intros H.
  edestruct H as (w' & d' & sec' & Hrun & _);
    [reflexivity|reflexivity|eexists; reflexivity|].
  rewrite Hrun in Hr. discriminate Hr.
Qed.

Lemma log_change_persists_counterexample :
  (log_change (VStr "edit") VNull (loaded (VDict doc_no_metadata))).1
    = Raise (KeyError "metadata")
  ∧ state_file (log_change (VStr "edit") VNull (loaded (VDict doc_no_metadata))).2
      = Some (JsonText (VDict doc_no_metadata))
  ∧ ¬ log_change_always_persists (loaded (VDict doc_no_metadata)) (VStr "edit") VNull.
Proof.
  assert (Hf : state_file (log_change (VStr "edit") VNull
                             (loaded (VDict doc_no_metadata))).2
               = Some (JsonText (VDict doc_no_metadata))) by reflexivity.
  split; [reflexivity|]. split; [exact Hf|]. intros H.
  destruct (H doc_no_metadata eq_refl) as (d' & entry & _ & Hh & Hfile).
  rewrite Hf in Hfile. injection Hfile as <-.
  assert (Hl : doc_no_metadata !! "changeHistory" = Some (VList [])) by reflexivity.
  rewrite Hl in Hh. injection Hh as Hh. by destruct (prior_history doc_no_metadata).
Qed.

Lemma roundtrip_counterexample :
  content_of
    (import_markdown "projectInfo" None
       (export_markdown plain_str (Some "projectInfo")
          (loaded (VDict (doc_with_content (VStr text_cr))))).2).2
    "projectInfo" = Some (VStr text_lf)
  ∧ ¬ roundtrip_restores_content plain_str (loaded (VDict (doc_with_content (VStr text_cr))))
  ∧ (export_markdown plain_str (Some "projectInfo")
       (loaded (VDict (doc_with_content (VNum 5))))).1 = Raise TypeError
  ∧ content_of
      (import_markdown "projectInfo" None
         (export_markdown plain_str (Some "projectInfo")
            (loaded (VDict (doc_with_content (VNum 5))))).2).2
      "projectInfo" = Some (VStr "")
  ∧ ¬ roundtrip_restores_content plain_str (loaded (VDict (doc_with_content (VNum 5)))).
Proof.
  assert (H1 : content_of
            (import_markdown "projectInfo" None
               (export_markdown plain_str (Some "projectInfo")
                  (loaded (VDict (doc_with_content (VStr text_cr))))).2).2
            "projectInfo" = Some (VStr text_lf)) by reflexivity.
  assert (H2 : content_of
            (import_markdown "projectInfo" None
               (export_markdown plain_str (Some "projectInfo")
                  (loaded (VDict (doc_with_content (VNum 5))))).2).2
            "projectInfo" = Some (VStr "")) by reflexivity.
  split; [exact H1|]. split; [|split; [reflexivity|split; [exact H2|]]].
  - intros H.
    rewrite (H (doc_with_content (VStr text_cr)) (brief_section (VStr text_cr))
               (VStr text_cr) eq_refl eq_refl eq_refl) in H1.
    injection H1 as H1. vm_compute in H1. discriminate H1.
  - intros H.
    rewrite (H (doc_with_content (VNum 5)) (brief_section (VNum 5))
               (VNum 5) eq_refl eq_refl eq_refl) in H2.
    discriminate H2.
Qed.

Lemma persist_raises_counterexample :
  update_section "doesNotExist" (VStr "x") VNull (loaded (VDict doc_no_metadata))
    = (Ok false, loaded (VDict doc_no_metadata))
  ∧ import_markdown "projectInfo" None (loaded (VDict doc_no_metadata))
    = (Ok false, loaded (VDict doc_no_metadata))
  ∧ ¬ persist_always_raises (loaded (VDict doc_no_metadata)).
Proof.
  assert (Hr : update_section "doesNotExist" (VStr "x") VNull
                 (loaded (VDict doc_no_metadata))
               = (Ok false, loaded (VDict doc_no_metadata))) by reflexivity.
  split; [exact Hr|]. split; [reflexivity|]. intros H.
  destruct (H doc_no_metadata eq_refl eq_refl) as (Hupd & _).
  destruct (Hupd "doesNotExist" (VStr "x") VNull) as [w' Hw'].
  rewrite Hr in Hw'. discriminate Hw'.
Qed.

(** ** Instances of the theorems on sample worlds *)

Lemma load_memory_state_corrupt_recursion_witness :
  load_memory_state 1000 corrupt_world = (Raise RecursionError, corrupt_world).
Proof.
  apply (load_memory_state_corrupt_recursion 1000 corrupt_world "{"). reflexivity.
Defined.

Lemma update_section_marks_complete_witness :
  ∃ w' d' sec',
    update_section "projectInfo" (VStr "# Brief")
      (dict [("name", VStr "Task Master")]) default_world = (Ok true, w')
    ∧ memory_state w' = VDict d'
    ∧ d' !! "projectInfo" = Some (VDict sec')
    ∧ sec' !! "status" = Some (VStr "Complete")
    ∧ state_file w' = Some (JsonText (VDict d')).
Proof.
  eapply update_section_marks_complete.
  - reflexivity.
  - reflexivity.
  - reflexivity.
  - eexists. reflexivity.
  - right. eexists. reflexivity.
  - intros H. discriminate H.
Defined.

Lemma fresh_manager_ready_sections_witness :
  ∃ w', MemoryBankManager 1 fresh_world = (Ok tt, w')
      ∧ memory_state w' = initial_state "demo" (VStr (stamp 0)) (VStr (stamp 1))
      ∧ state_file w' = Some (JsonText (memory_state w'))
      ∧ get_ready_sections (memory_state w') = Ok ["projectInfo"].
Proof. apply (fresh_manager_ready_sections 0 fresh_world). reflexivity. Defined.

Lemma update_section_unknown_name_witness :
  update_section "doesNotExist" (VStr "x") (dict [("name", VStr "N")]) default_world
    = (Ok false, default_world).
Proof.
  eapply update_section_unknown_name.
  - reflexivity.
  - reflexivity.
Defined.

Lemma update_section_malformed_raises_witness :
  update_section "projectInfo" (VStr "# Brief") VNull (loaded (VDict doc_malformed))
    = (Raise TypeError, loaded (VDict doc_malformed))
  ∧ update_section "tasks" (VStr "") (dict [("activeContext", VStr "reviewing")])
      (loaded (VDict doc_malformed))
    = (Raise (KeyError "current"), loaded (VDict doc_malformed)).
Proof.
  split.
  - apply (proj1 (update_section_malformed_raises (loaded (VDict doc_malformed))
                    doc_malformed (VStr "# Brief") VNull eq_refl)
             "projectInfo" (VStr "legacy brief")).
    + left. reflexivity.
    + reflexivity.
    + reflexivity.
  - eapply (proj1 (proj2 (update_section_malformed_raises (loaded (VDict doc_malformed))
                    doc_malformed (VStr "") _ eq_refl))).
    + reflexivity.
    + reflexivity.
    + reflexivity.
    + reflexivity.
Defined.

Lemma log_change_appends_and_persists_witness :
  ∃ w' d',
    log_change (VStr "Tested memory bank modifications")
      (dict [("test", VStr "successful")]) default_world = (Ok tt, w')
    ∧ memory_state w' = VDict d'
    ∧ d' !! "changeHistory" =
        Some (VList [change_entry (VStr (stamp 2))
                       (VStr "Tested memory bank modifications")
                       (dict [("test", VStr "successful")])])
    ∧ state_file w' = Some (JsonText (VDict d')).
Proof.
  edestruct (log_change_appends_and_persists default_world)
    as (w' & d' & Hrun & Hms & Hh & _ & Hfile).
  - reflexivity.
  - reflexivity.
  - exists w', d'. split; [exact Hrun|]. split; [exact Hms|]. split; [exact Hh|exact Hfile].
Defined.

Lemma export_import_restores_content_witness :
  files exported_world !! ("demo/memory-bank", "projectbrief.md") = Some text_lf
  ∧ content_of (import_markdown "projectInfo" None exported_world).2 "projectInfo"
    = Some (VStr text_lf)
  ∧ (import_markdown "projectInfo" None exported_world).1 = Ok true.
Proof.
  destruct (export_import_restores_content plain_str brief_world
              (doc_with_content (VStr text_lf)) (brief_section (VStr text_lf))
              text_lf None eq_refl eq_refl eq_refl (or_introl eq_refl))
    as (Hfile & _ & Hcontent & Hok).
  split; [exact Hfile|]. split; [exact (Hcontent eq_refl)|].
  eapply Hok. reflexivity.
Defined.

Lemma export_markdown_unmapped_unbound_witness :
  export_markdown plain_str (Some "standards") default_world
    = (Raise (UnboundLocalError "md_file"), default_world)
  ∧ export_markdown plain_str (Some "changeHistory") default_world
    = (Raise (UnboundLocalError "md_file"), default_world).
Proof.
  split.
  - eapply export_markdown_unmapped_unbound.
    + reflexivity.
    + eexists. reflexivity.
    + intros H. discriminate H.
    + reflexivity.
  - eapply export_markdown_unmapped_unbound.
    + reflexivity.
    + eexists. reflexivity.
    + intros H. discriminate H.
    + reflexivity.
Defined.

Lemma persist_requires_metadata_witness :
  save_memory_state (loaded (VDict doc_no_metadata))
    = (Raise (KeyError "metadata"), tick (loaded (VDict doc_no_metadata)))
  ∧ (∃ w', log_change (VStr "edit") VNull (loaded (VDict doc_no_metadata))
           = (Raise (KeyError "metadata"), w'))
  ∧ (∃ w', update_section "projectInfo" (VStr "# Brief") VNull
             (loaded (VDict doc_no_metadata))
           = (Raise (KeyError "metadata"), w')).
Proof.
  destruct (persist_requires_metadata (loaded (VDict doc_no_metadata)) doc_no_metadata
              eq_refl eq_refl) as (Hsave & Hlog & Hupd & _).
  split; [exact Hsave|]. split.
  - destruct (Hlog (VStr "edit") VNull) as (w' & Hw' & _). by exists w'.
  - edestruct (Hupd "projectInfo" pending_section (VStr "# Brief") VNull) as (w' & Hw' & _).
    + reflexivity.
    + left. reflexivity.
    + intros H. discriminate H.
    + by exists w'.
Defined.

Lemma load_memory_state_absent_witness :
  load_memory_state 2 fresh_world =
    (Ok tt,
     set_memory_state (initial_state "demo" (VStr (stamp 0)) (VStr (stamp 1)))
       (set_state_file
          (Some (JsonText (initial_state "demo" (VStr (stamp 0)) (VStr (stamp 1)))))
          (tick (tick fresh_world)))).
Proof. apply (load_memory_state_absent 0 fresh_world). reflexivity. Defined.

Lemma load_memory_state_decodes_witness :
  load_memory_state 1 (loaded (VList [])) = (Ok tt, loaded (VList [])).
Proof. apply (load_memory_state_decodes 0 (loaded (VList [])) (VList [])). reflexivity. Defined.

Lemma update_section_generic_not_mapping_witness :
  (update_section "changeHistory" (VStr "notes") VNull default_world).1 = Ok true
  ∧ content_of (update_section "changeHistory" (VStr "notes") VNull default_world).2
      "changeHistory" = None.
Proof.
  erewrite (update_section_generic_not_mapping default_world _ _ "changeHistory"
              (VList []) (VStr "notes") VNull);
    [|reflexivity|reflexivity|reflexivity|reflexivity
     |intros H; discriminate H|intros H; discriminate H|intros H; discriminate H].
  split; reflexivity.
Defined.

(** * Further properties *)

(** ** core.py: persistence *)

Lemma load_memory_state_json (depth : nat) (w : world) (v : value) :
  state_file w = Some (JsonText v) →
  load_memory_state (S depth) w = (Ok tt, set_memory_state v w).
Proof.
  intros H. simpl. unfold try_except, read_state_file. run. by rewrite H.
Qed.

(** X4.  On a document with a [metadata] mapping, [save_memory_state]
    returns normally; afterwards the state file holds exactly the
    in-memory document, whose [metadata.lastUpdated] is the clock reading
    taken by the call while every other metadata field and every other
    section is as before; the previous state file, if any, has become the
    backup; no other file is touched; and a reload reads the same document
    back, changing nothing. *)
Theorem save_memory_state_persists (depth : nat) (w : world) (d m : gmap string value) :
  memory_state w = VDict d → d !! "metadata" = Some (VDict m) →
  ∃ w' d' m',
    save_memory_state w = (Ok tt, w')
    ∧ memory_state w' = VDict d'
    ∧ state_file w' = Some (JsonText (VDict d'))
    ∧ d' !! "metadata" = Some (VDict m')
    ∧ m' !! "lastUpdated" = Some (VStr (clock w (ticks w)))
    ∧ (∀ k, k ≠ "lastUpdated" → m' !! k = m !! k)
    ∧ (∀ k, k ≠ "metadata" → d' !! k = d !! k)
    ∧ backup_file w' = (match state_file w with Some f => Some f | None => backup_file w end)
    ∧ files w' = files w
    ∧ load_memory_state (S depth) w' = (Ok tt, w').
Proof.
  intros Hw Hm. rewrite (save_memory_state_ok w d m Hw Hm).
  eexists _, _, _. split; [reflexivity|]. simpl.
  split; [reflexivity|]. split; [reflexivity|].
  split; [apply lookup_insert_eq|]. split; [apply lookup_insert_eq|].
  split; [intros k Hk; by rewrite lookup_insert_ne|].
  split; [intros k Hk; by rewrite lookup_insert_ne|].
  split; [reflexivity|]. split; [reflexivity|].
  exact (load_memory_state_json depth (saved d m w) _ eq_refl).
Qed.

(** X5.  The backup is one generation deep: after two saves in a row the
    backup file holds the document written by the first, and the state
    file the document written by the second. *)
Theorem save_twice_backup (w : world) (d m : gmap string value) :
  memory_state w = VDict d → d !! "metadata" = Some (VDict m) →
  ∃ w1 w2,
    save_memory_state w = (Ok tt, w1)
    ∧ save_memory_state w1 = (Ok tt, w2)
    ∧ backup_file w2 = Some (JsonText (memory_state w1))
    ∧ state_file w2 = Some (JsonText (memory_state w2)).
Proof.
  intros Hw Hm. rewrite (save_memory_state_ok w d m Hw Hm).
  eexists _, _. split; [reflexivity|].
  erewrite save_memory_state_ok; [|reflexivity|apply lookup_insert_eq].
  split; [reflexivity|]. split; reflexivity.
Qed.

(** X6.  Building the manager on a project whose state file decodes loads
    that document as it is and writes nothing: no file changes and the
    clock is not read. *)
Theorem manager_opens_existing (depth : nat) (w : world) (v : value) :
  state_file w = Some (JsonText v) →
  MemoryBankManager (S depth) w = (Ok tt, set_memory_state v w).
Proof.
  intros H. unfold MemoryBankManager, init_memory_bank.
  erewrite bind_ok; [|reflexivity].
  erewrite init_memory_bank_body_present; [|exact H].
  exact (load_memory_state_json depth (set_memory_state (VDict ∅) w) v H).
Qed.

(** X7.  Building the manager on a project whose state file is not JSON
    fails: the constructor raises [RecursionError] at every nesting depth
    and leaves the files as they are. *)
Theorem manager_corrupt_file_fails (depth : nat) (w : world) (text : string) :
  state_file w = Some (Garbage text) →
  MemoryBankManager depth w = (Raise RecursionError, set_memory_state (VDict ∅) w).
Proof.
  intros H. unfold MemoryBankManager, init_memory_bank.
  erewrite bind_ok; [|reflexivity].
  erewrite init_memory_bank_body_present; [|exact H].
  assert (H' : state_file (set_memory_state (VDict ∅) w) = Some (Garbage text))
    by exact H.
  revert H'. generalize (set_memory_state (VDict ∅) w). clear w H.
  induction depth as [|depth IH]; intros w H; [done|].
  simpl. unfold try_except, read_state_file. run. rewrite H.
  rewrite (init_memory_bank_body_present _ _ _ H). by apply IH.
Qed.

(** ** sections.py: what [update_section] writes *)

Lemma overlay_other (l : list (string * value)) (sec : gmap string value) (k : string) :
  k ∉ l.*1 → foldl (λ s kv, <[kv.1 := kv.2]> s) sec l !! k = sec !! k.
Proof.
  revert sec. induction l as [|[k' x'] l IH]; intros sec Hk; simpl; [done|].
  rewrite fmap_cons, not_elem_of_cons in Hk. destruct Hk as [Hne Hk].
  rewrite IH; [|done]. by rewrite lookup_insert_ne.
Qed.

Lemma overlay_member (l : list (string * value)) (sec : gmap string value)
    (k : string) (x : value) :
  NoDup l.*1 → (k, x) ∈ l → foldl (λ s kv, <[kv.1 := kv.2]> s) sec l !! k = Some x.
Proof.
  revert sec. induction l as [|[k' x'] l IH]; intros sec Hnd Hin; simpl.
  { by apply elem_of_nil in Hin. }
  rewrite fmap_cons in Hnd. apply NoDup_cons in Hnd as [Hk' Hnd].
  apply elem_of_cons in Hin as [[= -> ->]|Hin].
  - rewrite overlay_other; [|done]. apply lookup_insert_eq.
  - by apply IH.
Qed.

Lemma overlay_map (md sec : gmap string value) (k : string) :
  foldl (λ s kv, <[kv.1 := kv.2]> s) sec (map_to_list md) !! k =
    match md !! k with Some x => Some x | None => sec !! k end.
Proof.
  destruct (md !! k) as [x|] eqn:Hk.
  - apply overlay_member; [apply NoDup_fst_map_to_list|by apply elem_of_map_to_list].
  - apply overlay_other. intros Hin. apply list_elem_of_fmap in Hin as ([k' x] & -> & Hin).
    apply elem_of_map_to_list in Hin. simpl in Hk. congruence.
Qed.

Lemma mark_complete_explicit (w : world) (d sec : gmap string value) (name : string) :
  memory_state w = VDict d → d !! name = Some (VDict sec) →
  mark_complete name w =
    (Ok tt, set_memory_state (VDict (<[name := VDict (completed sec)]> d)) w).
Proof.
  intros Hw Hs. unfold mark_complete, completed. run. rewrite Hw. simpl. rewrite Hs. simpl.
  destruct (sec !! "status") as [st|] eqn:Hst.
  - rewrite !bool_decide_eq_true_2; [|by eexists..].
    by erewrite set_section_item_dict.
  - rewrite !bool_decide_eq_false_2; [|by intros [? ?]..].
    rewrite insert_id; [|done]. rewrite <- Hw. by destruct w.
Qed.

Lemma completed_status (sec : gmap string value) :
  is_Some (sec !! "status") → completed sec !! "status" = Some (VStr "Complete").
Proof.
  intros H. unfold completed. rewrite bool_decide_eq_true_2; [|done]. apply lookup_insert_eq.
Qed.

Lemma completed_other (sec : gmap string value) (k : string) :
  k ≠ "status" → completed sec !! k = sec !! k.
Proof. intros H. unfold completed. case_bool_decide; [by rewrite lookup_insert_ne|done]. Qed.

Lemma completed_no_status (sec : gmap string value) :
  sec !! "status" = None → completed sec = sec.
Proof.
  intros H. unfold completed. rewrite bool_decide_eq_false_2; [done|].
  rewrite H. by intros [? ?].
Qed.

(** Once the writing branch has run, the rest of [update_section] marks the
    section and saves. *)
Lemma update_section_after_write (w : world) (d m sec sec1 : gmap string value)
    (name : string) (content metadata : value) (n : nat) :
  memory_state w = VDict d → d !! "metadata" = Some (VDict m) →
  d !! name = Some (VDict sec) → name ≠ "metadata" →
  write_section name content metadata w =
    (Ok tt, set_memory_state (VDict (<[name := VDict sec1]> d)) (Nat.iter n tick w)) →
  update_section name content metadata w =
    (Ok true, saved (<[name := VDict (completed sec1)]> d) m (Nat.iter n tick w)).
Proof.
  intros Hw Hm Hs Hne Hwrite. unfold update_section.
  erewrite bind_ok; [|reflexivity]. rewrite Hw.
  erewrite bind_ok; [|by rewrite (contains_key _ _ _ Hs)]. simpl.
  erewrite bind_ok; [|exact Hwrite].
  erewrite bind_ok; [|by apply mark_complete_explicit with (d := <[name := VDict sec1]> d);
                        [reflexivity|apply lookup_insert_eq]].
  rewrite insert_insert_eq.
  erewrite bind_ok;
    [|apply save_memory_state_ok with (d := <[name := VDict (completed sec1)]> d) (m := m);
      [reflexivity|by rewrite lookup_insert_ne]].
  reflexivity.
Qed.

(** X8.  [update_section] on a section that is a mapping (under the
    conditions of C3, the section not being [metadata]) changes, besides
    that section, only [metadata.lastUpdated]: every other section and
    every other metadata field is as before; the previous state file has
    become the backup, the markdown files are untouched, the state file
    holds the new document, and a reload changes nothing. *)
Theorem update_section_touches_only_its_section (depth : nat) (w : world)
    (d m sec : gmap string value) (name : string) (content metadata : value) :
  memory_state w = VDict d → d !! "metadata" = Some (VDict m) →
  d !! name = Some (VDict sec) → name ≠ "metadata" →
  mapping_or_none metadata → (name = "tasks" → tasks_shape_ok sec metadata) →
  ∃ w' d' m',
    update_section name content metadata w = (Ok true, w')
    ∧ memory_state w' = VDict d'
    ∧ (∀ k, k ≠ name → k ≠ "metadata" → d' !! k = d !! k)
    ∧ d' !! "metadata" = Some (VDict m')
    ∧ (∀ k, k ≠ "lastUpdated" → m' !! k = m !! k)
    ∧ backup_file w' = (match state_file w with Some f => Some f | None => backup_file w end)
    ∧ files w' = files w
    ∧ state_file w' = Some (JsonText (VDict d'))
    ∧ load_memory_state (S depth) w' = (Ok tt, w').
Proof.
  intros Hw Hm Hs Hne Hmd Htasks.
  destruct (write_section_ok w d sec name content metadata Hw Hs Hmd Htasks)
    as (sec1 & n & Hwrite & _).
  rewrite (update_section_after_write w d m sec sec1 name content metadata n
             Hw Hm Hs Hne Hwrite).
  assert (Hfields : state_file (Nat.iter n tick w) = state_file w
                    ∧ backup_file (Nat.iter n tick w) = backup_file w
                    ∧ files (Nat.iter n tick w) = files w).
  { clear. induction n as [|n IH]; [done|]. simpl. exact IH. }
  destruct Hfields as (Hsf & Hbf & Hfs).
  set (w1 := saved _ m (Nat.iter n tick w)).
  pose proof (load_memory_state_json depth w1 _ eq_refl) as Hload.
  exists w1. eexists _, _. split; [reflexivity|].
  split; [reflexivity|].
  split; [intros k H1 H2; by rewrite !lookup_insert_ne|].
  split; [apply lookup_insert_eq|].
  split; [intros k Hk; by rewrite lookup_insert_ne|].
  split; [subst w1; simpl; by rewrite Hsf, Hbf|].
  split; [exact Hfs|]. split; [reflexivity|]. exact Hload.
Qed.

(** X9.  After a successful [update_section] of a section that carries a
    [status], [get_ready_sections] no longer lists that section. *)
Theorem updated_section_not_ready (w : world) (d m sec : gmap string value)
    (name : string) (content metadata : value) :
  memory_state w = VDict d → d !! "metadata" = Some (VDict m) →
  d !! name = Some (VDict sec) → name ≠ "metadata" → is_Some (sec !! "status") →
  mapping_or_none metadata → (name = "tasks" → tasks_shape_ok sec metadata) →
  ∃ w' ready,
    update_section name content metadata w = (Ok true, w')
    ∧ get_ready_sections (memory_state w') = Ok ready
    ∧ name ∉ ready.
Proof.
  intros Hw Hm Hs Hne Hst Hmd Htasks.
  destruct (write_section_ok w d sec name content metadata Hw Hs Hmd Htasks)
    as (sec1 & n & Hwrite & Hkeys).
  rewrite (update_section_after_write w d m sec sec1 name content metadata n
             Hw Hm Hs Hne Hwrite).
  set (w1 := saved _ m _).
  assert (Hd' : ∃ d', memory_state w1 = VDict d'
                      ∧ d' !! name = Some (VDict (completed sec1))).
  { eexists. split; [reflexivity|]. rewrite lookup_insert_ne; [|done].
    apply lookup_insert_eq. }
  destruct Hd' as (d' & Hw1 & Hname).
  destruct (ready_loop_spec d' (section_dependencies.*1) []) as (ready & Hr & Hin).
  exists w1, ready. split; [reflexivity|]. rewrite Hw1. split; [exact Hr|].
  rewrite Hin. intros [H|[_ [(sec' & st & Hsec' & Hst' & Hnc) _]]].
  { by apply elem_of_nil in H. }
  rewrite Hname in Hsec'. injection Hsec' as <-.
  rewrite completed_status in Hst'; [|by apply Hkeys]. congruence.
Qed.

Ltac eval_eqb :=
  repeat match goal with
         | |- context [String.eqb ?a ?b] =>
             let r := eval vm_compute in (String.eqb a b) in
             change (String.eqb a b) with r
         end.

Lemma write_project_info (w : world) (d sec md : gmap string value) (content : value) :
  memory_state w = VDict d → d !! "projectInfo" = Some (VDict sec) →
  write_section "projectInfo" content (VDict md) w =
    (Ok tt,
     set_memory_state
       (VDict (<["projectInfo" :=
                  VDict (foldl (λ s kv, <[kv.1 := kv.2]> s)
                           (<["content" := content]> sec) (map_to_list md))]> d))
       (Nat.iter 0 tick w)).
Proof.
  intros Hw Hs. unfold write_section. eval_eqb. cbv iota.
  erewrite bind_ok; [|by apply set_section_item_dict].
  destruct (truthy (VDict md)) eqn:Ht; cbv iota.
  - erewrite bind_ok; [|reflexivity].
    erewrite overlay_loop; [|reflexivity|apply lookup_insert_eq].
    by rewrite insert_insert_eq.
  - assert (md = ∅) as ->.
    { simpl in Ht. apply negb_false_iff in Ht. by apply bool_decide_eq_true_1 in Ht. }
    by rewrite map_to_list_empty.
Qed.

Lemma get_section_saved (w : world) (d m sec : gmap string value) (name : string) :
  d !! name = Some (VDict sec) → name ≠ "metadata" →
  get_section name (saved d m w) = (Ok (VDict sec), saved d m w).
Proof.
  intros Hs Hne. unfold get_section. run.
  rewrite lookup_insert_ne; [|done]. rewrite Hs.
  by rewrite bool_decide_eq_true_2; [|by eexists].
Qed.

(** X10.  [update_section] on [projectInfo] with a metadata mapping, then
    [get_section]: every pair of the metadata is found in the section (so
    a [content] key in the metadata overrides the [content] argument, which
    is stored otherwise), the fields the call does not name are as before,
    and the status is ["Complete"] as soon as the section or the metadata
    carries one. *)
Theorem update_project_info_then_get (w : world) (d m sec md : gmap string value)
    (content : value) :
  memory_state w = VDict d → d !! "metadata" = Some (VDict m) →
  d !! "projectInfo" = Some (VDict sec) →
  ∃ w' sec',
    update_section "projectInfo" content (VDict md) w = (Ok true, w')
    ∧ get_section "projectInfo" w' = (Ok (VDict sec'), w')
    ∧ (∀ k x, md !! k = Some x → k ≠ "status" → sec' !! k = Some x)
    ∧ (md !! "content" = None → sec' !! "content" = Some content)
    ∧ (∀ k, md !! k = None → k ≠ "content" → k ≠ "status" → sec' !! k = sec !! k)
    ∧ (is_Some (sec !! "status") ∨ is_Some (md !! "status") →
       sec' !! "status" = Some (VStr "Complete")).
Proof.
  intros Hw Hm Hs.
  erewrite update_section_after_write;
    [|exact Hw|exact Hm|exact Hs|done|by apply write_project_info].
  eexists _, _. split; [reflexivity|].
  split; [apply get_section_saved; [apply lookup_insert_eq|done]|].
  split; [|split; [|split]].
  - intros k x Hk Hne. by rewrite completed_other, overlay_map, Hk.
  - intros Hk. rewrite completed_other, overlay_map, Hk; [|done]. apply lookup_insert_eq.
  - intros k Hk H1 H2. rewrite completed_other, overlay_map, Hk; [|done].
    by rewrite lookup_insert_ne.
  - intros H. apply completed_status. rewrite overlay_map.
    destruct (md !! "status"); [by eexists|].
    rewrite lookup_insert_ne; [|done]. by destruct H as [H|[? H]].
Qed.

Lemma write_tasks_history (w : world) (d t md : gmap string value)
    (content p : value) (h : list value) :
  memory_state w = VDict d → d !! "tasks" = Some (VDict t) →
  md !! "activeContext" = None → md !! "progress" = Some p →
  t !! "history" = Some (VList h) →
  write_section "tasks" content (VDict md) w =
    (Ok tt,
     set_memory_state
       (VDict (<["tasks" :=
                  VDict (<["history" :=
                             VList (h ++ [history_entry (VStr (clock w (ticks w))) md p])]> t)]> d))
       (Nat.iter 1 tick w)).
Proof.
  intros Hw Ht Ha Hp Hh. unfold write_section, and_contains. eval_eqb. cbv iota.
  rewrite (truthy_dict_lookup _ _ _ Hp).
  unfold append_history, now, history_entry. run. rewrite Ha, Hp. simpl.
  rewrite Hw. simpl. rewrite Ht. simpl. rewrite Hh. simpl. done.
Qed.

Lemma write_tasks_context (w : world) (d t c md : gmap string value) (content x : value) :
  memory_state w = VDict d → d !! "tasks" = Some (VDict t) →
  md !! "activeContext" = Some x → md !! "progress" = None →
  t !! "current" = Some (VDict c) →
  write_section "tasks" content (VDict md) w =
    (Ok tt,
     set_memory_state
       (VDict (<["tasks" :=
                  VDict (<["current" := VDict (<["activeContext" := x]> c)]> t)]> d))
       (Nat.iter 0 tick w)).
Proof.
  intros Hw Ht Ha Hp Hc. unfold write_section, and_contains. eval_eqb. cbv iota.
  rewrite (truthy_dict_lookup _ _ _ Ha).
  unfold set_current_item. run. rewrite Ha, Hp. simpl.
  rewrite Hw. simpl. rewrite Ht. simpl. rewrite Hc. simpl. done.
Qed.

(** X11.  [update_section] on [tasks] with a metadata that carries
    [progress] (and no [activeContext]), [tasks.history] being a list:
    the history is the former one followed by one record
    [{timestamp, description or "Task completed", progress, "Completed"}]
    stamped with the clock reading of the call; every other field of
    [tasks] is kept, no [status] is added to [tasks], and the [content]
    argument plays no part. *)
Theorem update_tasks_appends_history (w : world) (d m t md : gmap string value)
    (content p : value) (h : list value) :
  memory_state w = VDict d → d !! "metadata" = Some (VDict m) →
  d !! "tasks" = Some (VDict t) → t !! "history" = Some (VList h) →
  md !! "progress" = Some p → md !! "activeContext" = None →
  ∃ w' t',
    update_section "tasks" content (VDict md) w = (Ok true, w')
    ∧ get_section "tasks" w' = (Ok (VDict t'), w')
    ∧ t' !! "history" =
        Some (VList (h ++ [history_entry (VStr (clock w (ticks w))) md p]))
    ∧ (∀ k, k ≠ "history" → k ≠ "status" → t' !! k = t !! k)
    ∧ (t !! "status" = None → t' !! "status" = None)
    ∧ (∀ content', update_section "tasks" content' (VDict md) w
                   = update_section "tasks" content (VDict md) w).
Proof.
  intros Hw Hm Ht Hh Hp Ha.
  pose proof (update_section_after_write w d m t _ "tasks" content (VDict md) 1
                Hw Hm Ht ltac:(done)
                (write_tasks_history w d t md content p h Hw Ht Ha Hp Hh)) as Hrun.
  eexists _, _. split; [exact Hrun|].
  split; [apply get_section_saved; [apply lookup_insert_eq|done]|].
  split; [by rewrite completed_other, lookup_insert_eq|].
  split; [intros k H1 H2; by rewrite completed_other, lookup_insert_ne|].
  split; [|intros; reflexivity].
  intros Hst. rewrite completed_no_status; by rewrite lookup_insert_ne.
Qed.

(** X12.  [update_section] on [tasks] with a metadata that carries
    [activeContext] (and no [progress]), [tasks.current] being a mapping:
    [tasks.current.activeContext] becomes the given value, the other
    fields of [current] and of [tasks], the history among them, are kept,
    and the [content] argument plays no part. *)
Theorem update_tasks_sets_active_context (w : world) (d m t c md : gmap string value)
    (content x : value) :
  memory_state w = VDict d → d !! "metadata" = Some (VDict m) →
  d !! "tasks" = Some (VDict t) → t !! "current" = Some (VDict c) →
  md !! "activeContext" = Some x → md !! "progress" = None →
  ∃ w' t' c',
    update_section "tasks" content (VDict md) w = (Ok true, w')
    ∧ get_section "tasks" w' = (Ok (VDict t'), w')
    ∧ t' !! "current" = Some (VDict c')
    ∧ c' !! "activeContext" = Some x
    ∧ (∀ k, k ≠ "activeContext" → c' !! k = c !! k)
    ∧ (∀ k, k ≠ "current" → k ≠ "status" → t' !! k = t !! k)
    ∧ (∀ content', update_section "tasks" content' (VDict md) w
                   = update_section "tasks" content (VDict md) w).
Proof.
  intros Hw Hm Ht Hc Ha Hp.
  pose proof (update_section_after_write w d m t _ "tasks" content (VDict md) 0
                Hw Hm Ht ltac:(done)
                (write_tasks_context w d t c md content x Hw Ht Ha Hp Hc)) as Hrun.
  eexists _, _, _. split; [exact Hrun|].
  split; [apply get_section_saved; [apply lookup_insert_eq|done]|].
  split; [by rewrite completed_other, lookup_insert_eq|].
  split; [apply lookup_insert_eq|].
  split; [intros k Hk; by rewrite lookup_insert_ne|].
  split; [intros k H1 H2; by rewrite completed_other, lookup_insert_ne|].
  intros; reflexivity.
Qed.

(** ** sections.py: the dependency check *)

(** X13.  On every document [check_dependencies_complete] returns, and it
    returns [True] exactly when the name is a key of the dependency table
    and each of its prerequisites is present in the document and, if it is
    a mapping with a [status], has status ["Complete"]; for a name outside
    the table it returns [False] whatever the document holds. *)
Theorem check_dependencies_complete_iff (d : gmap string value) (name : string) :
  ∃ b, check_dependencies_complete (VDict d) name = Ok b
     ∧ (b = true ↔ ∃ deps, assoc name section_dependencies = Some deps
                         ∧ ∀ dep, dep ∈ deps → prerequisite_passes d dep)
     ∧ (assoc name section_dependencies = None → b = false).
Proof.
  destruct (check_dependencies_complete_spec d name) as (b & Hrun & Hb).
  exists b. split; [exact Hrun|]. split; [exact Hb|].
  intros Hnone. destruct b; [|done].
  destruct (proj1 Hb eq_refl) as (deps & Hd & _). congruence.
Qed.

(** ** sections.py: a sequence of [log_change] *)

Lemma log_change_result (w : world) (d m : gmap string value) (description details : value) :
  memory_state w = VDict d → d !! "metadata" = Some (VDict m) →
  log_change description details w =
    (Ok tt,
     saved (<["changeHistory" :=
               VList (prior_history d ++
                      [change_entry (VStr (clock w (ticks w))) description details])]> d)
       m (tick w)).
Proof.
  intros Hw Hm. rewrite (log_change_steps w d description details Hw).
  by erewrite save_memory_state_ok; [|reflexivity|by rewrite lookup_insert_ne].
Qed.

(** X14.  [changeHistory] is append-only across calls: a sequence of
    [log_change] calls on a document with a [metadata] mapping returns
    normally and leaves the history equal to the prior entries followed by
    one entry per call, in call order, each stamped with the clock reading
    taken by its call (two readings per call: the entry and the save);
    after at least one call the state file holds the final document. *)
Theorem log_changes_append (calls : list (value * value)) :
  ∀ (w : world) (d m : gmap string value),
  memory_state w = VDict d → d !! "metadata" = Some (VDict m) →
  ∃ w' d',
    for_each calls (λ c, log_change c.1 c.2) w = (Ok tt, w')
    ∧ memory_state w' = VDict d'
    ∧ prior_history d' =
        (prior_history d ++
         imap (λ i c, change_entry (VStr (clock w (ticks w + 2 * i))) c.1 c.2) calls)%list
    ∧ state_file w' = (match calls with
                       | [] => state_file w
                       | _ => Some (JsonText (VDict d'))
                       end).
Proof.
  induction calls as [|[description details] calls IH]; intros w d m Hw Hm.
  { exists w, d. simpl. by rewrite app_nil_r. }
  rewrite for_each_cons.
  erewrite bind_ok; [|exact (log_change_result w d m description details Hw Hm)].
  set (e := change_entry (VStr (clock w (ticks w))) description details).
  set (d1 := <["changeHistory" := VList (prior_history d ++ [e])]> d).
  edestruct (IH (saved d1 m (tick w))) as (w' & d' & Hrun & Hms & Hh & Hf);
    [reflexivity|apply lookup_insert_eq|].
  exists w', d'. split; [exact Hrun|]. split; [exact Hms|]. split.
  - rewrite Hh. unfold prior_history at 1.
    rewrite lookup_insert_ne; [|done]. subst d1. rewrite lookup_insert_eq.
    rewrite <- app_assoc. f_equal. simpl. f_equal.
    + subst e. by rewrite Nat.add_0_r.
    + apply imap_ext. intros i c _. simpl.
      by replace (ticks w + S (i + S (i + 0))) with (S (S (ticks w + (i + (i + 0))))) by lia.
  - destruct calls; [|exact Hf]. simpl in Hrun. injection Hrun as <-.
    simpl in Hms. by injection Hms as <-.
Qed.

(** ** workflows.py *)

Lemma incomplete_loop_spec (d : gmap string value) (names : list string) :
  ∀ acc, incomplete_loop (VDict d) names acc =
           Ok (acc ++ List.filter (λ n, negb (section_complete d n)) names)%list.
Proof.
  induction names as [|n names IH]; intros acc; simpl.
  { by rewrite app_nil_r. }
  unfold section_complete at 1.
  destruct (d !! n) as [v|] eqn:Hv.
  2:{ rewrite bool_decide_eq_false_2; [|by intros [? ?]]. simpl.
      by rewrite IH, <- app_assoc. }
  rewrite bool_decide_eq_true_2; [|by eexists]. simpl.
  destruct v as [| | | |l|sec]; simpl; try (by rewrite IH, <- app_assoc).
  destruct (sec !! "status") as [st|] eqn:Hst.
  2:{ rewrite bool_decide_eq_false_2; [|by intros [? ?]]. simpl.
      by rewrite IH, <- app_assoc. }
  rewrite bool_decide_eq_true_2; [|by eexists]. simpl.
  destruct (str_eq st "Complete"); simpl; [apply IH|by rewrite IH, <- app_assoc].
Qed.

Lemma ready_flag_loop_spec (d : gmap string value) (names : list string) :
  ∀ flag, ready_flag_loop (VDict d) names flag =
            Ok (flag && forallb (section_complete d) names).
Proof.
  induction names as [|n names IH]; intros flag; simpl.
  { by rewrite andb_true_r. }
  unfold section_complete at 1.
  destruct (d !! n) as [v|] eqn:Hv.
  2:{ rewrite bool_decide_eq_false_2; [|by intros [? ?]]. simpl.
      by rewrite IH, andb_false_r. }
  rewrite bool_decide_eq_true_2; [|by eexists]. simpl.
  destruct v as [| | | |l|sec]; simpl; try (by rewrite IH, andb_false_r).
  destruct (sec !! "status") as [st|] eqn:Hst.
  2:{ rewrite bool_decide_eq_false_2; [|by intros [? ?]]. simpl.
      by rewrite IH, andb_false_r. }
  rewrite bool_decide_eq_true_2; [|by eexists]. simpl.
  destruct (str_eq st "Complete"); simpl; [apply IH|by rewrite IH, andb_false_r].
Qed.

Lemma listed_not_complete (d : gmap string value) (name : string) :
  listed d name → section_complete d name = false.
Proof.
  intros [(sec & st & Hs & Hst & Hne) _]. unfold section_complete.
  rewrite Hs, Hst. by apply str_eq_false.
Qed.

(** What [enter_plan_mode] computes. *)
Lemma enter_plan_mode_run (d : gmap string value) :
  let incomplete :=
    List.filter (λ n, negb (section_complete d n)) plan_required_sections in
  ∃ ready,
    get_ready_sections (VDict d) = Ok ready
    ∧ (∀ name, name ∈ ready → listed d name)
    ∧ enter_plan_mode (VDict d) =
        Ok (PlanStatus "Plan" incomplete ready (Nat.eqb (List.length incomplete) 0)).
Proof.
  intros incomplete. unfold enter_plan_mode. rewrite incomplete_loop_spec.
  unfold get_ready_sections.
  destruct (ready_loop_spec d (section_dependencies.*1) []) as (ready & Hr & Hin).
  rewrite Hr. exists ready. split; [reflexivity|]. split; [|reflexivity].
  intros name Hready.
  apply Hin in Hready as [H|[_ Hl]]; [by apply elem_of_nil in H|exact Hl].
Qed.

Lemma no_incomplete_all_complete (d : gmap string value) :
  Nat.eqb (List.length
             (List.filter (λ n, negb (section_complete d n)) plan_required_sections)) 0
  = forallb (section_complete d) plan_required_sections.
Proof.
  unfold plan_required_sections. simpl.
  by repeat (destruct (section_complete d _)).
Qed.

(** X15.  On every document [enter_plan_mode] returns, in mode ["Plan"]:
    [incomplete_sections] are, in order, those of [projectInfo],
    [productContext], [systemPatterns], [technologies] that are not a
    mapping with status ["Complete"] (absent and malformed ones count as
    incomplete); [all_complete] tells that there is none;
    [ready_sections] is what [get_ready_sections] returns; and every ready
    section among the four is reported incomplete. *)
Theorem enter_plan_mode_spec (d : gmap string value) :
  ∃ st,
    enter_plan_mode (VDict d) = Ok st
    ∧ plan_mode st = "Plan"
    ∧ incomplete_sections st =
        List.filter (λ n, negb (section_complete d n)) plan_required_sections
    ∧ all_complete st = forallb (section_complete d) plan_required_sections
    ∧ get_ready_sections (VDict d) = Ok (ready_sections st)
    ∧ (∀ name, name ∈ ready_sections st → name ∈ plan_required_sections →
         name ∈ incomplete_sections st).
Proof.
  destruct (enter_plan_mode_run d) as (ready & Hr & Hin & Hrun).
  eexists. split; [exact Hrun|]. split; [reflexivity|]. split; [reflexivity|].
  split; [apply no_incomplete_all_complete|]. split; [exact Hr|].
  cbn [ready_sections incomplete_sections]. intros name Hready Hreq.
  apply Hin, listed_not_complete in Hready.
  apply list_elem_of_In, filter_In. split; [by apply list_elem_of_In|by rewrite Hready].
Qed.

Lemma progress_loop_spec (history : list value) :
  ∀ acc, progress_loop history acc = (acc ++ omap task_progress history)%list.
Proof.
  induction history as [|task history IH]; intros acc; simpl.
  { by rewrite app_nil_r. }
  destruct task as [| | | |l|t]; simpl; try apply IH.
  destruct (t !! "progress"); [|apply IH]. by rewrite IH, <- app_assoc.
Qed.

(** What [enter_act_mode] computes. *)
Lemma enter_act_mode_run (d : gmap string value) :
  enter_act_mode (VDict d) =
    Ok (ActStatus "Act"
          (forallb (section_complete d) act_required_sections)
          (match current_task d with
           | Some c => default (VStr "") (c !! "activeContext")
           | None => VStr ""
           end)
          (omap task_progress (task_history d))).
Proof.
  unfold enter_act_mode, has_tasks_dict, tasks_field, current_task, task_history.
  rewrite ready_flag_loop_spec. simpl.
  destruct (d !! "tasks") as [v|] eqn:Hv.
  2:{ rewrite bool_decide_eq_false_2; [|by intros [? ?]]. done. }
  rewrite bool_decide_eq_true_2; [|by eexists]. simpl.
  destruct v as [| | | |l|t]; simpl; try done.
  destruct (t !! "current") as [c|] eqn:Hc; destruct (t !! "history") as [h|] eqn:Hh;
    rewrite ?bool_decide_eq_true_2 by (by eexists);
    rewrite ?bool_decide_eq_false_2 by (by intros [? ?]); simpl;
    try destruct c; try destruct h; simpl; by rewrite ?progress_loop_spec.
Qed.

(** X16.  On every document [enter_act_mode] returns, in mode ["Act"]:
    [all_ready] tells that [projectInfo], [productContext] and
    [technologies] are mappings with status ["Complete"] ([systemPatterns]
    is not asked for); [active_context] is [tasks.current.activeContext],
    or the empty string when [tasks] or [current] is not a mapping or the
    field is missing; [progress] lists, in order, the [progress] of the
    history entries that are mappings with that field. *)
Theorem enter_act_mode_spec (d : gmap string value) :
  ∃ st,
    enter_act_mode (VDict d) = Ok st
    ∧ act_mode st = "Act"
    ∧ all_ready st = forallb (section_complete d) act_required_sections
    ∧ active_context st =
        match current_task d with
        | Some c => default (VStr "") (c !! "activeContext")
        | None => VStr ""
        end
    ∧ progress st = omap task_progress (task_history d).
Proof.
  eexists. split; [apply enter_act_mode_run|]. by repeat split.
Qed.

(** X17.  Plan mode is the stricter of the two: on every document, when
    [enter_plan_mode] reports [all_complete], [enter_act_mode] reports
    [all_ready], and no section of the plan list is ready to work on. *)
Theorem plan_complete_implies_act_ready (d : gmap string value) :
  ∃ p a,
    enter_plan_mode (VDict d) = Ok p
    ∧ enter_act_mode (VDict d) = Ok a
    ∧ (all_complete p = true →
       all_ready a = true
       ∧ incomplete_sections p = []
       ∧ ∀ name, name ∈ plan_required_sections → name ∉ ready_sections p).
Proof.
  destruct (enter_plan_mode_run d) as (ready & Hr & Hin & Hrun).
  eexists _, _. split; [exact Hrun|]. split; [apply enter_act_mode_run|].
  cbn [all_complete all_ready incomplete_sections ready_sections]. intros Hc.
  rewrite no_incomplete_all_complete in Hc.
  unfold plan_required_sections, act_required_sections in *. simpl in Hc |- *.
  repeat (apply andb_true_iff in Hc as [? Hc]).
  repeat match goal with H : section_complete _ _ = true |- _ => rewrite H end.
  split; [done|]. split; [done|].
  intros name Hreq Hready. apply Hin, listed_not_complete in Hready.
  repeat (apply elem_of_cons in Hreq as [->|Hreq]; [congruence|]).
  by apply elem_of_nil in Hreq.
Qed.

Lemma review_loop_spec (d : gmap string value) (names : list string) :
  ∀ current, review_loop (VDict d) names current =
               Ok (foldl (λ c n, <[n := status_or_unknown d n]> c) current names).
Proof.
  induction names as [|n names IH]; intros current; simpl; [done|].
  unfold has_status_field, status_or_unknown at 2. simpl.
  destruct (d !! n) as [v|] eqn:Hv.
  2:{ rewrite bool_decide_eq_false_2; [|by intros [? ?]]. simpl. apply IH. }
  rewrite bool_decide_eq_true_2; [|by eexists]. simpl.
  destruct v as [| | | |l|sec]; simpl; try apply IH.
  destruct (sec !! "status") as [st|] eqn:Hst.
  - rewrite bool_decide_eq_true_2; [|by eexists]. simpl. apply IH.
  - rewrite bool_decide_eq_false_2; [|by intros [? ?]]. simpl. apply IH.
Qed.

Lemma review_map_lookup (d : gmap string value) (s : string) :
  let cs : gmap string value :=
    <["tasks" := VStr s]>
      (foldl (λ c n, <[n := status_or_unknown d n]> c) ∅ sections_to_check) in
  (∀ name, name ∈ sections_to_check → cs !! name = Some (status_or_unknown d name))
  ∧ cs !! "tasks" = Some (VStr s)
  ∧ (∀ name,
       name ∉ ["projectInfo"; "productContext"; "systemPatterns"; "technologies";
               "tasks"; "standards"] → cs !! name = None).
Proof.
  unfold sections_to_check. cbn [foldl]. split; [|split].
  - intros name Hin.
    repeat (apply elem_of_cons in Hin as [->|Hin]; [by simplify_map_eq|]).
    by apply elem_of_nil in Hin.
  - by simplify_map_eq.
  - intros name Hn.
    repeat (apply not_elem_of_cons in Hn as [? Hn]). by simplify_map_eq.
Qed.

(** X18.  On every document [update_all_memory_bank] returns the action
    ["review_all"] with the six section names, and a [current_state] that
    has exactly those six keys: for each of [projectInfo],
    [productContext], [systemPatterns], [technologies], [standards] the
    [status] of the section, or ["Unknown"] when the section is absent,
    not a mapping or without [status]; for [tasks], ["Active"] when
    [tasks.current] is there and truthy, ["None"] when it is missing or
    empty, ["Unknown"] when [tasks] is absent or not a mapping. *)
Theorem update_all_memory_bank_spec (d : gmap string value) :
  ∃ r,
    update_all_memory_bank (VDict d) = Ok r
    ∧ review_action r = "review_all"
    ∧ review_sections r =
        ["projectInfo"; "productContext"; "systemPatterns"; "technologies";
         "tasks"; "standards"]
    ∧ (∀ name, name ∈ sections_to_check →
         current_state r !! name = Some (status_or_unknown d name))
    ∧ current_state r !! "tasks" = Some (VStr (tasks_state d))
    ∧ (∀ name, name ∉ review_sections r → current_state r !! name = None).
Proof.
  unfold update_all_memory_bank, has_tasks_dict. rewrite review_loop_spec.
  unfold tasks_state.
  destruct (d !! "tasks") as [v|] eqn:Hv; simpl; rewrite Hv.
  2:{ rewrite bool_decide_eq_false_2; [|by intros [? ?]].
      eexists. split; [reflexivity|]. split; [reflexivity|]. split; [reflexivity|].
      apply review_map_lookup. }
  rewrite bool_decide_eq_true_2; [|by eexists]. simpl.
  destruct v as [| | | |l|t]; simpl;
    try (eexists; split; [reflexivity|]; split; [reflexivity|]; split; [reflexivity|];
         apply review_map_lookup).
  destruct (t !! "current") as [c|] eqn:Hc.
  - rewrite bool_decide_eq_true_2; [|by eexists].
    eexists. split; [reflexivity|]. split; [reflexivity|]. split; [reflexivity|].
    apply review_map_lookup.
  - rewrite bool_decide_eq_false_2; [|by intros [? ?]].
    eexists. split; [reflexivity|]. split; [reflexivity|]. split; [reflexivity|].
    apply review_map_lookup.
Qed.

(** ** exporters.py: what the export and the import touch *)

#[local] Instance export_frame_refl : Reflexive export_frame.
Proof. by intros w. Qed.

#[local] Instance export_frame_trans : Transitive export_frame.
Proof.
  intros w1 w2 w3 (H1 & H2 & H3 & H4 & H5 & H6) (H1' & H2' & H3' & H4' & H5' & H6').
  unfold export_frame. rewrite H1', H2', H3', H4', H5'.
  repeat (split; [done|]). intros p Hp. by rewrite H6', H6.
Qed.

Lemma export_frame_open_write (dir f : string) :
  f ∈ export_files → frame export_frame (open_write (dir, f)).
Proof.
  intros Hf w. unfold open_write, export_frame. simpl.
  repeat (split; [done|]). intros p Hp.
  rewrite lookup_insert_ne; [done|]. intros <-. by apply Hp.
Qed.

Lemma export_frame_write (dir f : string) (x : value) :
  f ∈ export_files → frame export_frame (write (dir, f) x).
Proof.
  intros Hf w. unfold write, export_frame. destruct x; simpl; try done.
  repeat (split; [done|]). intros p Hp.
  rewrite lookup_insert_ne; [done|]. intros <-. by apply Hp.
Qed.

Ltac in_list :=
  repeat first [apply list_elem_of_here | apply list_elem_of_further].

Ltac export_frame_step :=
  first
    [ apply frame_ret; apply _ | apply frame_raise; apply _
    | apply frame_lift; apply _ | apply frame_get_world; apply _
    | apply export_frame_open_write; (assumption || in_list)
    | apply export_frame_write; (assumption || in_list)
    | apply frame_fmap
    | apply frame_bind; [apply _| |intros ?]
    | match goal with
      | |- frame _ (if ?b then _ else _) => destruct b
      | |- frame _ (match ?x with _ => _ end) => destruct x
      end ].

Lemma export_frame_tasks (str_of : value → string) :
  frame export_frame (export_tasks str_of).
Proof. unfold export_tasks, export_files. repeat export_frame_step. Qed.

Lemma export_frame_regular (name filename : string) :
  filename ∈ export_files → frame export_frame (export_regular name filename).
Proof. intros H. unfold export_regular. repeat export_frame_step. Qed.

Lemma export_mapping_files (name filename : string) :
  assoc name export_mapping = Some filename → filename ∈ export_files.
Proof.
  unfold export_mapping, export_files. simpl.
  repeat (destruct (String.eqb name _); [intros [= <-]; in_list|]). done.
Qed.

Lemma frame_export_all (str_of : value → string) :
  frame export_frame
    (for_each export_mapping (export_entry str_of) ;;
     (w ← get_world; mret (ExportedDir (memory_path w)))).
Proof.
  apply frame_bind; [apply _| |intros ?; repeat export_frame_step].
  apply frame_for_each; [apply _..|].
  intros [name filename] Hin.
  assert (Hf : filename ∈ export_files).
  { unfold export_mapping, export_files in *.
    repeat (apply elem_of_cons in Hin as [[= -> ->]|Hin]; [in_list|]).
    by apply elem_of_nil in Hin. }
  unfold export_entry, is_tasks_dict.
  repeat (first [export_frame_step | by apply export_frame_tasks
                 | by apply export_frame_regular]).
Qed.

(** X19.  [export_markdown], of one section or of all, whether it returns
    or raises, changes nothing but markdown files: the in-memory document,
    the state file, the backup and the clock are as before, and so is
    every file whose name is not one of the six markdown names. *)
Theorem export_markdown_only_writes_markdown (str_of : value → string)
    (section_name : option string) (w : world) :
  export_frame w (export_markdown str_of section_name w).2.
Proof.
  revert w. change (frame export_frame (export_markdown str_of section_name)).
  unfold export_markdown. destruct section_name as [name|].
  2:{ apply frame_export_all. }
  destruct (String.eqb name ""); [apply frame_export_all|].
  apply frame_bind; [apply _|export_frame_step|intros w].
  apply frame_bind; [apply _|export_frame_step|intros present].
  destruct present; [|export_frame_step].
  apply frame_bind; [apply _|unfold is_tasks_dict; repeat export_frame_step|intros tasks_dict].
  apply frame_bind; [apply _| |intros md; repeat export_frame_step].
  destruct tasks_dict.
  - apply frame_fmap, export_frame_tasks.
  - destruct (assoc name export_mapping) as [filename|] eqn:Hmap; [|export_frame_step].
    apply frame_bind; [apply _|export_frame_step|intros sec].
    destruct (is_dict sec); [|export_frame_step].
    apply frame_fmap, export_frame_regular. by eapply export_mapping_files.
Qed.

(** X20.  Only five sections can be imported by name: for any other
    section name ([standards], [changeHistory], [metadata], ...) and no
    path, [import_markdown] returns [False] and changes nothing, whatever
    files exist. *)
Theorem import_markdown_unmapped_name (name : string) (w : world) :
  name ∉ importable_sections →
  import_markdown name None w = (Ok false, w).
Proof.
  intros Hn. unfold import_markdown.
  assert (derive_file name import_mapping = None) as ->; [|done].
  unfold importable_sections in Hn.
  repeat (apply not_elem_of_cons in Hn as [? Hn]).
  unfold import_mapping. cbn [derive_file].
  repeat match goal with
         | |- context [String.eqb ?a name] =>
             destruct (String.eqb_spec a name) as [Heq|_]; [by subst|]
         end.
  done.
Qed.

Lemma import_mapping_section (f section : string) :
  assoc f import_mapping = Some section → section ≠ "metadata".
Proof.
  unfold import_mapping. simpl.
  repeat (destruct (String.eqb f _); [by intros [= <-]|]). done.
Qed.

(** X21.  [import_markdown] of a readable file named after a regular
    section ([projectbrief.md], [productContext.md], [systemPatterns.md],
    [techContext.md]), the section being a mapping and the document having
    a [metadata] mapping: it returns [True]; the section's [content] is the
    text read, even the empty text; its [status] is ["Complete"], added if
    the section had none; its other fields are kept; the document is
    persisted.  The file name alone picks the section: the [section_name]
    argument plays no part. *)
Theorem import_markdown_marks_complete (w : world) (d m sec : gmap string value)
    (name section s : string) (p : path) :
  memory_state w = VDict d → d !! "metadata" = Some (VDict m) →
  files w !! p = Some s →
  p.2 ≠ "activeContext.md" → p.2 ≠ "progress.md" →
  assoc p.2 import_mapping = Some section →
  d !! section = Some (VDict sec) →
  ∃ w' sec',
    import_markdown name (Some p) w = (Ok true, w')
    ∧ get_section section w' = (Ok (VDict sec'), w')
    ∧ sec' !! "content" = Some (VStr (universal_newlines s))
    ∧ sec' !! "status" = Some (VStr "Complete")
    ∧ (∀ k, k ≠ "content" → k ≠ "status" → sec' !! k = sec !! k)
    ∧ state_file w' = Some (JsonText (memory_state w'))
    ∧ (∀ name', import_markdown name' (Some p) w = import_markdown name (Some p) w).
Proof.
  intros Hw Hm Hf H1 H2 Hmap Hs.
  pose proof (import_mapping_section _ _ Hmap) as Hne.
  pose proof (import_markdown_regular w d sec name section s p Hw Hf H1 H2 Hmap Hs) as Hrun.
  erewrite bind_ok in Hrun;
    [|apply save_memory_state_ok with (m := m); [reflexivity|by rewrite lookup_insert_ne]].
  eexists _, _. split; [exact Hrun|].
  split; [apply get_section_saved; [apply lookup_insert_eq|done]|].
  split; [by rewrite lookup_insert_ne, lookup_insert_eq|].
  split; [apply lookup_insert_eq|].
  split; [intros k Hk1 Hk2; by rewrite !lookup_insert_ne|].
  split; [reflexivity|]. intros; reflexivity.
Qed.






(** X23.  The import of [progress.md] does not undo its export: the text
    of a readable file named [progress.md], given by path, goes to
    [tasks.current.progress]; [tasks.history], from which the export builds
    the file, is left as it is, like every other field.  By name, [tasks]
    is imported from [activeContext.md], never from [progress.md]. *)
Theorem import_progress_keeps_history (w : world) (d m t c : gmap string value)
    (name s : string) (p : path) :
  memory_state w = VDict d → d !! "metadata" = Some (VDict m) →
  files w !! p = Some s → p.2 = "progress.md" →
  d !! "tasks" = Some (VDict t) → t !! "current" = Some (VDict c) →
  ∃ w' t',
    import_markdown name (Some p) w = (Ok true, w')
    ∧ get_section "tasks" w' = (Ok (VDict t'), w')
    ∧ t' !! "current" = Some (VDict (<["progress" := VStr (universal_newlines s)]> c))
    ∧ t' !! "history" = t !! "history"
    ∧ (∀ k, k ≠ "current" → t' !! k = t !! k)
    ∧ derive_file "tasks" import_mapping = Some "activeContext.md".
Proof.
  intros Hw Hm Hf Hp Ht Hc.
  erewrite (import_markdown_current w d t c name s p "progress");
    [|exact Hw|exact Hf|by right|exact Ht|exact Hc].
  erewrite bind_ok;
    [|apply save_memory_state_ok with (m := m); [reflexivity|by rewrite lookup_insert_ne]].
  eexists _, _. split; [reflexivity|].
  split; [apply get_section_saved; [apply lookup_insert_eq|done]|].
  split; [apply lookup_insert_eq|].
  split; [by rewrite lookup_insert_ne|].
  split; [intros k Hk; by rewrite lookup_insert_ne|reflexivity].
Qed.

Lemma export_regular_placeholder (w : world) (d sec : gmap string value)
    (name filename : string) :
  memory_state w = VDict d → d !! name = Some (VDict sec) →
  sec !! "content" = None →
  export_regular name filename w =
    (Ok (memory_path w, filename),
     set_files (<[(memory_path w, filename) := placeholder name]> (files w)) w).
Proof.
  intros Hw Hs Hc. unfold export_regular, open_write, write, placeholder. run.
  rewrite Hw. simpl. rewrite Hs. simpl.
  rewrite bool_decide_eq_false_2; [|rewrite Hc; by intros [? ?]]. simpl.
  by rewrite lookup_insert_eq, insert_insert_eq.
Qed.

(** X24.  A regular section that is a mapping without [content] is
    exported as a placeholder (a heading with the section's name and the
    line [*No content yet*]); the export leaves the document as it is.
    Importing the section back then succeeds: the placeholder becomes the
    section's [content] and its [status] becomes ["Complete"], though
    nothing was ever written for it. *)
Theorem export_import_placeholder (str_of : value → string) (w : world)
    (d m sec : gmap string value) (name filename : string) :
  (name, filename) ∈ regular_mapping →
  memory_state w = VDict d → d !! "metadata" = Some (VDict m) →
  d !! name = Some (VDict sec) → sec !! "content" = None →
  ∃ w1 w2 sec',
    export_markdown str_of (Some name) w
      = (Ok (ExportedFile (memory_path w, filename)), w1)
    ∧ files w1 !! (memory_path w, filename) = Some (placeholder name)
    ∧ memory_state w1 = memory_state w
    ∧ state_file w1 = state_file w
    ∧ import_markdown name None w1 = (Ok true, w2)
    ∧ get_section name w2 = (Ok (VDict sec'), w2)
    ∧ sec' !! "content" = Some (VStr (placeholder name))
    ∧ sec' !! "status" = Some (VStr "Complete")
    ∧ (∀ k, k ≠ "content" → k ≠ "status" → sec' !! k = sec !! k).
Proof.
  intros Hin Hw Hm Hs Hc.
  set (w1 := set_files (<[(memory_path w, filename) := placeholder name]> (files w)) w).
  assert (Hexp : export_markdown str_of (Some name) w
                 = (Ok (ExportedFile (memory_path w, filename)), w1)).
  { unfold regular_mapping in Hin.
    repeat (apply elem_of_cons in Hin as [[= -> ->]|Hin];
            [unfold export_markdown, is_tasks_dict; run; rewrite Hw; simpl;
             rewrite Hs; simpl;
             by rewrite (export_regular_placeholder w d sec _ _ Hw Hs Hc)|]).
    by apply elem_of_nil in Hin. }
  assert (Hfile : files w1 !! (memory_path w1, filename) = Some (placeholder name))
    by apply lookup_insert_eq.
  assert (Himp : import_markdown name None w1 =
                 (save_memory_state ;; mret true)
                   (set_memory_state
                      (VDict (<[name := VDict (<["status" := VStr "Complete"]>
                                 (<["content" := VStr (placeholder name)]> sec))]> d))
                      w1)).
  { unfold regular_mapping in Hin.
    repeat (apply elem_of_cons in Hin as [[= -> ->]|Hin];
            [erewrite import_markdown_derived; [|reflexivity];
             exact (import_markdown_regular w1 d sec _ _ _ (memory_path w1, _)
                      Hw Hfile ltac:(done) ltac:(done) eq_refl Hs)|]).
    by apply elem_of_nil in Hin. }
  assert (Hne : name ≠ "metadata").
  { unfold regular_mapping in Hin.
    repeat (apply elem_of_cons in Hin as [[= -> ->]|Hin]; [done|]).
    by apply elem_of_nil in Hin. }
  erewrite bind_ok in Himp;
    [|apply save_memory_state_ok with (m := m); [reflexivity|by rewrite lookup_insert_ne]].
  exists w1. eexists _, _. split; [exact Hexp|]. split; [exact Hfile|].
  split; [reflexivity|]. split; [reflexivity|]. split; [exact Himp|].
  split; [apply get_section_saved; [apply lookup_insert_eq|done]|].
  split; [by rewrite lookup_insert_ne, lookup_insert_eq|].
  split; [apply lookup_insert_eq|].
  intros k Hk1 Hk2. by rewrite !lookup_insert_ne.
Qed.

(** ** Instances of the further properties *)

Lemma save_memory_state_persists_witness :
  ∃ w', save_memory_state default_world = (Ok tt, w')
      ∧ state_file w' = Some (JsonText (memory_state w'))
      ∧ backup_file w' = state_file default_world
      ∧ load_memory_state 1 w' = (Ok tt, w').
Proof.
  edestruct (save_memory_state_persists 0 default_world)
    as (w' & d' & m' & Hrun & Hms & Hsf & _ & _ & _ & _ & Hb & _ & Hload).
  - reflexivity.
  - reflexivity.
  - exists w'. split; [exact Hrun|]. split; [by rewrite Hms|].
    split; [exact Hb|exact Hload].
Defined.

Lemma save_twice_backup_witness :
  ∃ w1 w2,
    save_memory_state default_world = (Ok tt, w1)
    ∧ save_memory_state w1 = (Ok tt, w2)
    ∧ backup_file w2 = Some (JsonText (memory_state w1))
    ∧ state_file w2 = Some (JsonText (memory_state w2)).
Proof.
  eapply (save_twice_backup default_world).
  - reflexivity.
  - reflexivity.
Defined.

Lemma manager_opens_existing_witness :
  MemoryBankManager 1 (loaded (VDict doc_no_status))
    = (Ok tt, loaded (VDict doc_no_status)).
Proof.
  apply (manager_opens_existing 0 (loaded (VDict doc_no_status)) (VDict doc_no_status)).
  reflexivity.
Defined.

Lemma manager_corrupt_file_fails_witness :
  MemoryBankManager 1000 corrupt_world = (Raise RecursionError, corrupt_world).
Proof.
  apply (manager_corrupt_file_fails 1000 corrupt_world "{"). reflexivity.
Defined.

Lemma update_section_touches_only_its_section_witness :
  ∃ w', update_section "projectInfo" (VStr "# Brief")
          (dict [("name", VStr "Task Master")]) default_world = (Ok true, w')
      ∧ content_of w' "technologies" = Some (VStr "")
      ∧ files w' = files default_world
      ∧ backup_file w' = state_file default_world
      ∧ load_memory_state 1 w' = (Ok tt, w').
Proof.
  edestruct update_section_touches_only_its_section
    with (depth := 0) (w := default_world) (name := "projectInfo")
         (content := VStr "# Brief") (metadata := dict [("name", VStr "Task Master")])
    as (w' & d' & m' & Hrun & Hms & Hother & _ & _ & Hb & Hf & _ & Hload).
  - reflexivity.
  - reflexivity.
  - reflexivity.
  - intros H. discriminate H.
  - right. eexists. reflexivity.
  - intros H. discriminate H.
  - exists w'. split; [exact Hrun|]. split.
    + unfold content_of. rewrite Hms.
      rewrite (Hother "technologies" ltac:(done) ltac:(done)). reflexivity.
    + split; [exact Hf|]. split; [exact Hb|exact Hload].
Defined.

Lemma updated_section_not_ready_witness :
  ∃ w' ready,
    update_section "projectInfo" (VStr "# Brief") VNull default_world = (Ok true, w')
    ∧ get_ready_sections (memory_state w') = Ok ready
    ∧ "projectInfo" ∉ ready.
Proof.
  eapply (updated_section_not_ready default_world).
  - reflexivity.
  - reflexivity.
  - reflexivity.
  - intros H. discriminate H.
  - eexists. reflexivity.
  - left. reflexivity.
  - intros H. discriminate H.
Defined.

Lemma update_project_info_then_get_witness :
  ∃ w' sec',
    update_section "projectInfo" (VStr "# Brief")
      (dict [("name", VStr "Task Master")]) default_world = (Ok true, w')
    ∧ get_section "projectInfo" w' = (Ok (VDict sec'), w')
    ∧ sec' !! "name" = Some (VStr "Task Master")
    ∧ sec' !! "content" = Some (VStr "# Brief")
    ∧ sec' !! "status" = Some (VStr "Complete").
Proof.
  edestruct update_project_info_then_get
    with (w := default_world) (content := VStr "# Brief")
         (md := (list_to_map [("name", VStr "Task Master")] : gmap string value))
    as (w' & sec' & Hrun & Hget & Hmd & Hcontent & _ & Hstatus).
  - reflexivity.
  - reflexivity.
  - reflexivity.
  - exists w', sec'. split; [exact Hrun|]. split; [exact Hget|].
    split; [apply Hmd; [reflexivity|done]|].
    split; [apply Hcontent; reflexivity|].
    apply Hstatus. left. eexists. reflexivity.
Defined.

Lemma update_tasks_appends_history_witness :
  ∃ w' t',
    update_section "tasks" (VStr "")
      (dict [("progress", VStr "Wired the exporter")]) default_world = (Ok true, w')
    ∧ get_section "tasks" w' = (Ok (VDict t'), w')
    ∧ t' !! "history" =
        Some (VList [dict [ ("timestamp", VStr (stamp 2));
                            ("description", VStr "Task completed");
                            ("progress", VStr "Wired the exporter");
                            ("status", VStr "Completed") ]]).
Proof.
  edestruct update_tasks_appends_history
    with (w := default_world) (content := VStr "") (p := VStr "Wired the exporter")
         (h := @nil value)
         (md := (list_to_map [("progress", VStr "Wired the exporter")] : gmap string value))
    as (w' & t' & Hrun & Hget & Hh & _).
  - reflexivity.
  - reflexivity.
  - reflexivity.
  - reflexivity.
  - reflexivity.
  - reflexivity.
  - exists w', t'. split; [exact Hrun|]. split; [exact Hget|exact Hh].
Defined.

Lemma update_tasks_sets_active_context_witness :
  ∃ w' t' c',
    update_section "tasks" (VStr "")
      (dict [("activeContext", VStr "Reviewing the exporter")]) default_world
      = (Ok true, w')
    ∧ get_section "tasks" w' = (Ok (VDict t'), w')
    ∧ t' !! "current" = Some (VDict c')
    ∧ c' !! "activeContext" = Some (VStr "Reviewing the exporter")
    ∧ t' !! "history" = Some (VList []).
Proof.
  edestruct update_tasks_sets_active_context
    with (w := default_world) (content := VStr "") (x := VStr "Reviewing the exporter")
         (md := (list_to_map [("activeContext", VStr "Reviewing the exporter")]
                 : gmap string value))
    as (w' & t' & c' & Hrun & Hget & Hc & Ha & _ & Hother & _).
  - reflexivity.
  - reflexivity.
  - reflexivity.
  - reflexivity.
  - reflexivity.
  - reflexivity.
  - exists w', t', c'. split; [exact Hrun|]. split; [exact Hget|].
    split; [exact Hc|]. split; [exact Ha|].
    rewrite (Hother "history" ltac:(done) ltac:(done)). reflexivity.
Defined.

Lemma log_changes_append_witness :
  ∃ w' d',
    for_each [(VStr "Created the brief", VNull);
              (VStr "Chose the stack", dict [("language", VStr "Python")])]
      (λ c, log_change c.1 c.2) default_world = (Ok tt, w')
    ∧ memory_state w' = VDict d'
    ∧ prior_history d' =
        [ change_entry (VStr (stamp 2)) (VStr "Created the brief") VNull;
          change_entry (VStr (stamp 4)) (VStr "Chose the stack")
            (dict [("language", VStr "Python")]) ]
    ∧ state_file w' = Some (JsonText (VDict d')).
Proof.
  edestruct (log_changes_append
               [(VStr "Created the brief", VNull);
                (VStr "Chose the stack", dict [("language", VStr "Python")])]
               default_world)
    as (w' & d' & Hrun & Hms & Hh & Hfile).
  - reflexivity.
  - reflexivity.
  - exists w', d'. split; [exact Hrun|]. split; [exact Hms|].
    split; [exact Hh|exact Hfile].
Defined.

Lemma import_markdown_unmapped_name_witness :
  import_markdown "standards" None edited_world = (Ok false, edited_world).
Proof.
  apply (import_markdown_unmapped_name "standards" edited_world).
  unfold importable_sections. intros H.
  repeat (apply elem_of_cons in H as [H|H]; [discriminate H|]).
  by apply elem_of_nil in H.
Defined.

Lemma import_markdown_marks_complete_witness :
  ∃ w' sec',
    import_markdown "projectInfo" (Some ("demo/memory-bank", "techContext.md"))
      edited_world = (Ok true, w')
    ∧ get_section "technologies" w' = (Ok (VDict sec'), w')
    ∧ sec' !! "content" = Some (VStr "Rocq")
    ∧ sec' !! "status" = Some (VStr "Complete")
    ∧ sec' !! "items" = Some (VList []).
Proof.
  edestruct import_markdown_marks_complete
    with (w := edited_world) (name := "projectInfo") (section := "technologies")
         (s := "Rocq") (p := ("demo/memory-bank", "techContext.md"))
    as (w' & sec' & Hrun & Hget & Hc & Hst & Hother & _).
  - reflexivity.
  - reflexivity.
  - reflexivity.
  - intros H. discriminate H.
  - intros H. discriminate H.
  - reflexivity.
  - reflexivity.
  - exists w', sec'. split; [exact Hrun|]. split; [exact Hget|].
    split; [exact Hc|]. split; [exact Hst|].
    rewrite (Hother "items" ltac:(done) ltac:(done)). reflexivity.
Defined.


Lemma import_progress_keeps_history_witness :
  ∃ w' t' c',
    import_markdown "tasks" (Some ("notes", "progress.md")) edited_world = (Ok true, w')
    ∧ get_section "tasks" w' = (Ok (VDict t'), w')
    ∧ t' !! "current" = Some (VDict c')
    ∧ c' !! "progress" = Some (VStr text_lf)
    ∧ t' !! "history" = Some (VList []).
Proof.
  edestruct import_progress_keeps_history
    with (w := edited_world) (name := "tasks") (s := text_cr)
         (p := ("notes", "progress.md"))
    as (w' & t' & Hrun & Hget & Hc & Hh & _).
  - reflexivity.
  - reflexivity.
  - reflexivity.
  - reflexivity.
  - reflexivity.
  - reflexivity.
  - exists w', t'. eexists. split; [exact Hrun|]. split; [exact Hget|].
    split; [exact Hc|]. split; [apply lookup_insert_eq|exact Hh].
Defined.

Lemma export_import_placeholder_witness :
  ∃ w1 w2 sec',
    export_markdown plain_str (Some "systemPatterns") (loaded (VDict doc_no_content))
      = (Ok (ExportedFile ("demo/memory-bank", "systemPatterns.md")), w1)
    ∧ import_markdown "systemPatterns" None w1 = (Ok true, w2)
    ∧ get_section "systemPatterns" w2 = (Ok (VDict sec'), w2)
    ∧ sec' !! "content" = Some (VStr (placeholder "systemPatterns"))
    ∧ sec' !! "status" = Some (VStr "Complete").
Proof.
  edestruct export_import_placeholder
    with (str_of := plain_str) (w := loaded (VDict doc_no_content))
         (name := "systemPatterns") (filename := "systemPatterns.md")
    as (w1 & w2 & sec' & Hexp & _ & _ & _ & Himp & Hget & Hc & Hst & _).
  - unfold regular_mapping. do 2 apply list_elem_of_further. apply list_elem_of_here.
  - reflexivity.
  - reflexivity.
  - reflexivity.
  - reflexivity.
  - exists w1, w2, sec'. split; [exact Hexp|]. split; [exact Himp|].
    split; [exact Hget|]. split; [exact Hc|exact Hst].
Defined.
